(** * Connection lifecycle of [cockroach_db_connect/main_poc.py]

    A shallow embedding of the module: the Kerberos ticket precheck, the
    once-per-process JVM start, the JDBC connect, the context-managed
    connection scope and the query helper.  The third-party layers
    ([os.path], [jpype], [jaydebeapi], the cursor objects) are an
    environment of oracles; every call the module makes on them is
    recorded, with its result, in a trace. *)

From Stdlib Require Import ZArith String List Bool Lia.
From stdpp Require Import base gmap strings list fin_maps pretty.

Open Scope string_scope.
Open Scope list_scope.

(** ** Python values, exceptions, handles *)

Inductive PyVal :=
| PyNone
| PyBool (b : bool)
| PyInt (z : Z)
| PyStr (s : string).

(** A row, and an entry of [cursor.description], are tuples. *)
Definition Row := list PyVal.

(** The part of the exception hierarchy the module can tell apart:
    [except Exception] catches every class but the ones deriving from
    [BaseException] only ([KeyboardInterrupt], [SystemExit], ...). *)
Inductive ExnClass :=
| PyException
| PyTypeError
| PyIndexError
| ExceptionSubclass (name : string)
| BaseExceptionOnly (name : string).

#[warnings="-register-all"]
Inductive Exn := mkExn {
  exn_class : ExnClass;
  exn_msg : string;
  exn_cause : option Exn
}.

Definition isinstance_Exception (e : Exn) : bool :=
  match exn_class e with
  | BaseExceptionOnly _ => false
  | _ => true
  end.

(** [f"{e}"]: the message of the exception. *)
Definition str_exn (e : Exn) : string := exn_msg e.

(** [f"{PORT}"] for an [int]. *)
Definition str_int (z : Z) : string := pretty z.

Record Connection := { conn_id : nat }.
Record Cursor := { cur_id : nat; cur_conn : Connection }.

#[global] Instance Connection_eq_dec : EqDecision Connection.
Proof. solve_decision. Defined.
#[global] Instance Cursor_eq_dec : EqDecision Cursor.
Proof. solve_decision. Defined.
#[global] Instance PyVal_eq_dec : EqDecision PyVal.
Proof. solve_decision. Defined.

(** ** Calls into the third-party layers, and the world *)

Inductive Call :=
| StartJVM (args : list string)
| Connect (jclassname url : string) (driver_args : gmap string string) (jars : string)
| ConnClose (c : Connection)
| ConnCursor (c : Connection)
| CurExecute (k : Cursor) (operation : string) (parameters : option (list PyVal))
| CurFetchall (k : Cursor)
| CurDescription (k : Cursor)
| CurClose (k : Cursor).

Inductive Ret :=
| RNone
| RConn (c : Connection)
| RCursor (k : Cursor)
| RRows (rows : list Row)
| RDescription (d : option (list Row)).

Record Event := { ev_call : Call; ev_result : Exn + Ret }.

Inductive Level := INFO | WARNING | ERROR.

(** [jvm] is the process-wide runtime: [None] until a [startJVM] has
    succeeded, then the arguments of that start.  [next_id] numbers the
    objects the driver hands out. *)
Record World := {
  jvm : option (list string);
  next_id : nat;
  trace : list Event;
  log : list (Level * string)
}.

Definition set_jvm (a : list string) (w : World) : World :=
  {| jvm := Some a; next_id := next_id w; trace := trace w; log := log w |}.
Definition bump_id (w : World) : World :=
  {| jvm := jvm w; next_id := S (next_id w); trace := trace w; log := log w |}.
Definition emit (c : Call) (r : Exn + Ret) (w : World) : World :=
  {| jvm := jvm w; next_id := next_id w;
     trace := trace w ++ [{| ev_call := c; ev_result := r |}]; log := log w |}.
Definition add_log (l : Level) (msg : string) (w : World) : World :=
  {| jvm := jvm w; next_id := next_id w; trace := trace w;
     log := log w ++ [(l, msg)] |}.

(** What the outside does when called; each oracle sees the world at
    the time of the call, so its answers may change over time. *)
Record Env := {
  path_exists_now : World -> string -> bool;
  default_jvm_path : World -> Exn + string;
  startJVM_raises : World -> list string -> option Exn;
  connect_raises :
    World -> string -> string -> gmap string string -> string -> option Exn;
  close_raises : World -> Connection -> option Exn;
  cursor_raises : World -> Connection -> option Exn;
  execute_raises : World -> Cursor -> string -> option (list PyVal) -> option Exn;
  fetchall_result : World -> Cursor -> Exn + list Row;
  description_result : World -> Cursor -> Exn + option (list Row);
  cursor_close_raises : World -> Cursor -> option Exn
}.

(** ** State and exception monad *)

Definition M (S A : Type) : Type := S -> (Exn + A) * S.

Section Monad.
Context {S : Type}.

Definition ret {A} (a : A) : M S A := fun s => (inr a, s).
Definition raise {A} (e : Exn) : M S A := fun s => (inl e, s).
Definition bind {A B} (m : M S A) (k : A -> M S B) : M S B :=
  fun s => match m s with
           | (inr a, s') => k a s'
           | (inl e, s') => (inl e, s')
           end.

(** [try: m  except Exception as e: h e] *)
Definition try_except_Exception {A} (m : M S A) (h : Exn -> M S A) : M S A :=
  fun s => match m s with
           | (inr a, s') => (inr a, s')
           | (inl e, s') => if isinstance_Exception e then h e s' else (inl e, s')
           end.

(** [try: m  finally: f]: [f] always runs; an exception of [f]
    replaces the outcome of [m]. *)
Definition try_finally {A} (m : M S A) (f : M S unit) : M S A :=
  fun s => match m s with
           | (r, s') => match f s' with
                        | (inr _, s'') => (r, s'')
                        | (inl e, s'') => (inl e, s'')
                        end
           end.
End Monad.

Notation "'let*' x ':=' m 'in' k" := (bind m (fun x => k))
  (at level 10, x name, m at level 100, k at level 200).
Notation "m '>>' k" := (bind m (fun _ => k))
  (at level 100, k at level 200, right associativity).

(** A generator frame: the local variable [conn] next to the world. *)
Definition Frame : Type := option Connection * World.

Definition lift {A} (m : M World A) : M Frame A :=
  fun s => match m (snd s) with (r, w') => (r, (fst s, w')) end.
Definition set_conn (c : option Connection) : M Frame unit :=
  fun s => (inr tt, (c, snd s)).
Definition get_conn : M Frame (option Connection) :=
  fun s => (inr (fst s), s).
Definition run_frame {A} (m : M Frame A) : M World A :=
  fun w => match m (None, w) with (r, s') => (r, snd s') end.

(** Truth value of [conn]: [None] is false, a connection object true. *)
Definition truthy_conn (c : option Connection) : bool :=
  match c with Some _ => true | None => false end.

(** Truth value of [params]: [None] and an empty sequence are false. *)
Definition truthy_params (p : option (list PyVal)) : bool :=
  match p with
  | Some (_ :: _) => true
  | _ => false
  end.

(** ** The module *)

(** The module-level configuration constants. *)
Record Globals := {
  PG_JAR : string;
  KRB5_CONF : string;
  JAAS_CONF : string;
  HOST : string;
  PORT : Z;
  DB : string;
  SPN : string
}.

Definition source_globals : Globals := {|
  PG_JAR := "I:\configs\dbeaver\postgresql-42.3.3.jar";
  KRB5_CONF := "I:\configs\dbeaver\krb5.conf";
  JAAS_CONF := "I:\configs\dbeaver\jaas.conf";
  HOST := "P001-104990-104991.na.cockroachdb.jpmchase.net";
  PORT := 26300;
  DB := "defaultdb";
  SPN := "cockroachdb"
|}.

(** The target descriptor assembled in [get_connection]. *)
Definition jdbc_url (G : Globals) : string :=
  ("jdbc:postgresql://" +:+ HOST G +:+ ":" +:+ str_int (PORT G) +:+ "/" +:+ DB G)
  +:+ "?sslmode=require"
  +:+ ("&kerberosServerName=" +:+ SPN G)
  +:+ "&gssEncMode=disable"
  +:+ "&connectTimeout=20"
  +:+ "&socketTimeout=300".

(** The properties dict of [get_connection]. *)
Definition props : gmap string string :=
  {[ "jaasApplicationName" := "pgjdbc";
     "ApplicationName" := "Python-JDBC-Kerberos" ]}.

(** [[desc[0] for desc in d]] over a description that is a list. *)
Fixpoint first_items (d : list Row) : Exn + list PyVal :=
  match d with
  | [] => inr []
  | [] :: _ => inl (mkExn PyIndexError "tuple index out of range" None)
  | (x :: _) :: rest =>
      match first_items rest with
      | inr xs => inr (x :: xs)
      | inl e => inl e
      end
  end.

Section Module.
Variable env : Env.
Variable G : Globals.

(** *** [logging], [os.path], [jpype], [jaydebeapi] *)

Definition logger_info (msg : string) : M World unit :=
  fun w => (inr tt, add_log INFO msg w).
Definition logger_warning (msg : string) : M World unit :=
  fun w => (inr tt, add_log WARNING msg w).
Definition logger_error (msg : string) : M World unit :=
  fun w => (inr tt, add_log ERROR msg w).

Definition os_path_exists (p : string) : M World bool :=
  fun w => (inr (path_exists_now env w p), w).

Definition jpype_isJVMStarted : M World bool :=
  fun w => (inr (match jvm w with Some _ => true | None => false end), w).

Definition jpype_getDefaultJVMPath : M World string :=
  fun w => (default_jvm_path env w, w).

Definition jpype_startJVM (args : list string) : M World unit :=
  fun w => match startJVM_raises env w args with
           | Some e => (inl e, emit (StartJVM args) (inl e) w)
           | None => (inr tt, set_jvm args (emit (StartJVM args) (inr RNone) w))
           end.

Definition jaydebeapi_connect (jclassname url : string)
    (driver_args : gmap string string) (jars : string) : M World Connection :=
  fun w =>
    let call := Connect jclassname url driver_args jars in
    match connect_raises env w jclassname url driver_args jars with
    | Some e => (inl e, emit call (inl e) w)
    | None => let c := {| conn_id := next_id w |} in
              (inr c, bump_id (emit call (inr (RConn c)) w))
    end.

Definition conn_close (c : Connection) : M World unit :=
  fun w => match close_raises env w c with
           | Some e => (inl e, emit (ConnClose c) (inl e) w)
           | None => (inr tt, emit (ConnClose c) (inr RNone) w)
           end.

Definition conn_cursor (c : Connection) : M World Cursor :=
  fun w => match cursor_raises env w c with
           | Some e => (inl e, emit (ConnCursor c) (inl e) w)
           | None => let k := {| cur_id := next_id w; cur_conn := c |} in
                     (inr k, bump_id (emit (ConnCursor c) (inr (RCursor k)) w))
           end.

Definition cur_execute (k : Cursor) (operation : string)
    (parameters : option (list PyVal)) : M World unit :=
  fun w => match execute_raises env w k operation parameters with
           | Some e => (inl e, emit (CurExecute k operation parameters) (inl e) w)
           | None => (inr tt, emit (CurExecute k operation parameters) (inr RNone) w)
           end.

Definition cur_fetchall (k : Cursor) : M World (list Row) :=
  fun w => match fetchall_result env w k with
           | inl e => (inl e, emit (CurFetchall k) (inl e) w)
           | inr rows => (inr rows, emit (CurFetchall k) (inr (RRows rows)) w)
           end.

Definition cur_description (k : Cursor) : M World (option (list Row)) :=
  fun w => match description_result env w k with
           | inl e => (inl e, emit (CurDescription k) (inl e) w)
           | inr d => (inr d, emit (CurDescription k) (inr (RDescription d)) w)
           end.

Definition cur_close (k : Cursor) : M World unit :=
  fun w => match cursor_close_raises env w k with
           | Some e => (inl e, emit (CurClose k) (inl e) w)
           | None => (inr tt, emit (CurClose k) (inr RNone) w)
           end.

(** *** The module's functions *)

Definition ticket_cache : string := "C:\Users\N123456\krb5cc_N123456".

Definition ensure_kerberos_ticket : M World bool :=
  let* found := os_path_exists ticket_cache in
  if negb found then
    logger_warning ("Kerberos ticket cache not found at " +:+ ticket_cache) >>
    logger_warning "Run 'kinit' to authenticate" >>
    ret false
  else ret true.

Definition jvm_args (jvm_path : string) : list string :=
  [ jvm_path;
    "-Djava.class.path=" +:+ PG_JAR G;
    "-Djava.security.krb5.conf=" +:+ KRB5_CONF G;
    "-Djava.security.auth.login.config=" +:+ JAAS_CONF G;
    "-Djavax.security.auth.useSubjectCredsOnly=false";
    "-Duser.timezone=UTC" ].

Definition get_connection : M World Connection :=
  let* ticket := ensure_kerberos_ticket in
  (if negb ticket
   then raise (mkExn PyException "No valid Kerberos ticket found" None)
   else ret tt) >>
  let* started := jpype_isJVMStarted in
  (if negb started then
     logger_info "Starting JVM with Kerberos configuration" >>
     let* jvm_path := jpype_getDefaultJVMPath in
     jpype_startJVM (jvm_args jvm_path)
   else ret tt) >>
  logger_info ("Connecting to " +:+ HOST G +:+ ":" +:+ str_int (PORT G)
               +:+ "/" +:+ DB G) >>
  jaydebeapi_connect "org.postgresql.Driver" (jdbc_url G) props (PG_JAR G).

(** [conn.close()] on whatever [conn] holds. *)
Definition conn_close_method (conn : option Connection) : M World unit :=
  match conn with
  | Some c => conn_close c
  | None => raise (mkExn (ExceptionSubclass "AttributeError")
                     "'NoneType' object has no attribute 'close'" None)
  end.

(** [with cockroach_connection() as conn: body conn].  The generator
    runs up to its [yield]; the body runs in its place: an exception
    of the body is thrown into the generator at the [yield], inside
    the [try], and a normal end of the body resumes it there. *)
Definition cockroach_connection {A} (body : Connection -> M World A) : M World A :=
  run_frame (
    set_conn None >>
    try_finally
      (try_except_Exception
         (let* c := lift get_connection in
          set_conn (Some c) >>
          lift (logger_info "Connection established successfully") >>
          lift (body c))
         (fun e =>
            lift (logger_error ("Connection failed: " +:+ str_exn e)) >>
            raise e))
      (let* conn := get_conn in
       if truthy_conn conn then
         lift (conn_close_method conn) >>
         lift (logger_info "Connection closed")
       else ret tt)).

(** The body of the [with] block of [run_reconciliation_query]. *)
Definition query_body (query : string) (params : option (list PyVal))
    (conn : Connection) : M World (list PyVal * list Row) :=
  let* cur := conn_cursor conn in
  (if truthy_params params
   then cur_execute cur query params
   else cur_execute cur query None) >>
  let* results := cur_fetchall cur in
  let* description := cur_description cur in
  let* columns :=
    (match description with
     | Some d => match first_items d with
                 | inr cols => ret cols
                 | inl e => raise e
                 end
     | None => raise (mkExn PyTypeError "'NoneType' object is not iterable" None)
     end) in
  cur_close cur >>
  ret (columns, results).

Definition run_reconciliation_query (query : string)
    (params : option (list PyVal)) : M World (list PyVal * list Row) :=
  cockroach_connection (query_body query params).
End Module.

(** ** Counting calls in a trace *)

Definition is_StartJVM (c : Call) : bool :=
  match c with StartJVM _ => true | _ => false end.
Definition is_Connect (c : Call) : bool :=
  match c with Connect _ _ _ _ => true | _ => false end.
Definition is_close_of (c : Connection) (call : Call) : bool :=
  match call with ConnClose c' => bool_decide (c' = c) | _ => false end.
Definition is_any_close (call : Call) : bool :=
  match call with ConnClose _ => true | _ => false end.
Definition is_cursor_close_of (k : Cursor) (call : Call) : bool :=
  match call with CurClose k' => bool_decide (k' = k) | _ => false end.

Definition succeeded (ev : Event) : bool :=
  match ev_result ev with inr _ => true | inl _ => false end.

(** Number of calls in [evs] that satisfy [p]. *)
Fixpoint count_calls (p : Call -> bool) (evs : list Event) : nat :=
  match evs with
  | [] => 0
  | ev :: rest => (if p (ev_call ev) then 1 else 0) + count_calls p rest
  end.

(** Number of calls in [evs] that satisfy [p] and returned normally. *)
Fixpoint count_ok (p : Call -> bool) (evs : list Event) : nat :=
  match evs with
  | [] => 0
  | ev :: rest =>
      (if p (ev_call ev) && succeeded ev then 1 else 0) + count_ok p rest
  end.

(** ** Concrete environments *)

Definition fresh_world : World :=
  {| jvm := None; next_id := 0; trace := []; log := [] |}.

(** Ticket present, JVM and driver reachable; [SELECT 1] answers one
    row with one unnamed column. *)
Definition happy_env : Env := {|
  path_exists_now := fun _ _ => true;
  default_jvm_path := fun _ => inr "/usr/lib/jvm/lib/server/libjvm.so";
  startJVM_raises := fun _ _ => None;
  connect_raises := fun _ _ _ _ _ => None;
  close_raises := fun _ _ => None;
  cursor_raises := fun _ _ => None;
  execute_raises := fun _ _ _ _ => None;
  fetchall_result := fun _ _ => inr [[PyInt 1]];
  description_result := fun _ _ =>
    inr (Some [[PyStr "?column?"; PyInt 4; PyNone; PyNone; PyNone; PyNone; PyNone]]);
  cursor_close_raises := fun _ _ => None
|}.

Definition no_ticket (e : Env) : Env := {|
  path_exists_now := fun _ _ => false;
  default_jvm_path := default_jvm_path e;
  startJVM_raises := startJVM_raises e;
  connect_raises := connect_raises e;
  close_raises := close_raises e;
  cursor_raises := cursor_raises e;
  execute_raises := execute_raises e;
  fetchall_result := fetchall_result e;
  description_result := description_result e;
  cursor_close_raises := cursor_close_raises e
|}.

Definition failing_start (x : Exn) (e : Env) : Env := {|
  path_exists_now := path_exists_now e;
  default_jvm_path := default_jvm_path e;
  startJVM_raises := fun _ _ => Some x;
  connect_raises := connect_raises e;
  close_raises := close_raises e;
  cursor_raises := cursor_raises e;
  execute_raises := execute_raises e;
  fetchall_result := fetchall_result e;
  description_result := description_result e;
  cursor_close_raises := cursor_close_raises e
|}.

Definition failing_connect (x : Exn) (e : Env) : Env := {|
  path_exists_now := path_exists_now e;
  default_jvm_path := default_jvm_path e;
  startJVM_raises := startJVM_raises e;
  connect_raises := fun _ _ _ _ _ => Some x;
  close_raises := close_raises e;
  cursor_raises := cursor_raises e;
  execute_raises := execute_raises e;
  fetchall_result := fetchall_result e;
  description_result := description_result e;
  cursor_close_raises := cursor_close_raises e
|}.

Definition failing_execute (x : Exn) (e : Env) : Env := {|
  path_exists_now := path_exists_now e;
  default_jvm_path := default_jvm_path e;
  startJVM_raises := startJVM_raises e;
  connect_raises := connect_raises e;
  close_raises := close_raises e;
  cursor_raises := cursor_raises e;
  execute_raises := fun _ _ _ _ => Some x;
  fetchall_result := fetchall_result e;
  description_result := description_result e;
  cursor_close_raises := cursor_close_raises e
|}.

Definition jvm_not_found : Exn :=
  mkExn (ExceptionSubclass "JVMNotFoundException") "No JVM shared library file found" None.
Definition sql_exception : Exn :=
  mkExn (ExceptionSubclass "java.sql.SQLException") "The connection attempt failed." None.
Definition database_error : Exn :=
  mkExn (ExceptionSubclass "DatabaseError") "relation does not exist" None.

(** ** Definitions used in the statements *)

Definition ticket_warnings : list (Level * string) :=
  [ (WARNING, "Kerberos ticket cache not found at C:\Users\N123456\krb5cc_N123456");
    (WARNING, "Run 'kinit' to authenticate") ].

Definition no_ticket_exception : Exn :=
  mkExn PyException "No valid Kerberos ticket found" None.

(** The driver call of [get_connection], and what the trace records as
    its result. *)
Definition connect_call (G : Globals) : Call :=
  Connect "org.postgresql.Driver" (jdbc_url G) props (PG_JAR G).

Definition connect_event (G : Globals) (r : Exn + Connection) : Event :=
  {| ev_call := connect_call G;
     ev_result := match r with inl e => inl e | inr c => inr (RConn c) end |}.

(** What the specification calls a [DriverError] wrapping a driver
    failure [cause]. *)
Definition is_DriverError_wrapping (cause : Exn) (e : Exn) : Prop :=
  exn_class e = ExceptionSubclass "DriverError" /\ exn_cause e = Some cause.

(** [n] acquisitions one after the other; the caller keeps or drops
    each handle and catches each exception. *)
Fixpoint acquire_n (env : Env) (G : Globals) (n : nat) (w : World) : World :=
  match n with
  | 0 => w
  | S n' => acquire_n env G n' (snd (get_connection env G w))
  end.

(** The wire target descriptor as the specification writes it:
    [protocol://host:port/database?k1=v1&k2=v2...], with the query
    parameters in the order of the list. *)
Definition wire_target_descriptor (protocol host : string) (port : Z)
    (database : string) (query : list (string * string)) : string :=
  protocol +:+ "://" +:+ host +:+ ":" +:+ str_int port +:+ "/" +:+ database
  +:+ "?" +:+ String.concat "&" (map (fun kv => fst kv +:+ "=" +:+ snd kv) query).

(** The query parameters the specification lists, in its order. *)
Definition spec_query_parameters (principal : string) (connect_secs socket_secs : Z)
    : list (string * string) :=
  [ ("sslmode", "require");
    ("kerberosServerName", principal);
    ("gssEncMode", "disable");
    ("connectTimeout", str_int connect_secs);
    ("socketTimeout", str_int socket_secs) ].

(** The literal descriptor for the constants of the source. *)
Definition source_jdbc_url : string :=
  "jdbc:postgresql://P001-104990-104991.na.cockroachdb.jpmchase.net:26300/defaultdb?sslmode=require&kerberosServerName=cockroachdb&gssEncMode=disable&connectTimeout=20&socketTimeout=300".

(** [cursor.execute] called with the parameter argument [p] ([None]:
    called without one). *)
Definition is_execute_with (p : option (list PyVal)) (call : Call) : bool :=
  match call with
  | CurExecute _ _ p' => bool_decide (p' = p)
  | _ => false
  end.

(** The cursor steps of a query before [cursor.close], in the order of
    the code. *)
Definition query_steps (c : Connection) (k : Cursor) (query : string)
    (parameters : option (list PyVal)) (rows : list Row) (d : list Row)
    : list Event :=
  [ {| ev_call := ConnCursor c; ev_result := inr (RCursor k) |};
    {| ev_call := CurExecute k query parameters; ev_result := inr RNone |};
    {| ev_call := CurFetchall k; ev_result := inr (RRows rows) |};
    {| ev_call := CurDescription k; ev_result := inr (RDescription (Some d)) |} ].

(** An event that makes the query fail on cursor [k] before
    [cursor.close] is reached: [execute], [fetchall] or the read of
    [description] raised, or the description read cannot be walked by
    the comprehension ([None], or an empty entry). *)
Definition cursor_step_raised (k : Cursor) (ev : Event) : bool :=
  match ev_call ev, ev_result ev with
  | CurExecute k' _ _, inl _ => bool_decide (k' = k)
  | CurFetchall k', inl _ => bool_decide (k' = k)
  | CurDescription k', inl _ => bool_decide (k' = k)
  | CurDescription k', inr (RDescription None) => bool_decide (k' = k)
  | CurDescription k', inr (RDescription (Some d)) =>
      bool_decide (k' = k) &&
      match first_items d with inl _ => true | inr _ => false end
  | _, _ => false
  end.

(** ** The script's main block *)

(** [f"{v}"] for a value. *)
Definition str_val (v : PyVal) : string :=
  match v with
  | PyNone => "None"
  | PyBool true => "True"
  | PyBool false => "False"
  | PyInt z => str_int z
  | PyStr s => s
  end.

Definition type_name (v : PyVal) : string :=
  match v with
  | PyNone => "NoneType"
  | PyBool _ => "bool"
  | PyInt _ => "int"
  | PyStr _ => "str"
  end.

(** A byte that continues a UTF-8 character ([10xxxxxx]). *)
Definition is_continuation (a : Ascii.ascii) : bool :=
  match a with
  | Ascii.Ascii _ _ _ _ _ _ b6 b7 => b7 && negb b6
  end.

(** [s[:n]] on a [str] held as UTF-8 bytes: the first [n] characters,
    each with the continuation bytes that follow its first byte. *)
Fixpoint slice_to (n : nat) (s : string) : string :=
  match s with
  | EmptyString => EmptyString
  | String a rest =>
      if is_continuation a then String a (slice_to n rest)
      else match n with
           | 0 => EmptyString
           | S n' => String a (slice_to n' rest)
           end
  end.

(** [v[:n]]: only a [str] can be sliced. *)
Definition slice_val (n : nat) (v : PyVal) : Exn + string :=
  match v with
  | PyStr s => inr (slice_to n s)
  | _ => inl (mkExn PyTypeError
                ("'" +:+ type_name v +:+ "' object is not subscriptable") None)
  end.

(** [user, version = row] for what [fetchone] returned. *)
Definition unpack_pair (row : option Row) : Exn + PyVal * PyVal :=
  match row with
  | None =>
      inl (mkExn PyTypeError "cannot unpack non-iterable NoneType object" None)
  | Some [] =>
      inl (mkExn (ExceptionSubclass "ValueError")
             "not enough values to unpack (expected 2, got 0)" None)
  | Some [_] =>
      inl (mkExn (ExceptionSubclass "ValueError")
             "not enough values to unpack (expected 2, got 1)" None)
  | Some [user; version] => inr (user, version)
  | Some _ =>
      inl (mkExn (ExceptionSubclass "ValueError")
             "too many values to unpack (expected 2)" None)
  end.

(** [row[0]] on a row tuple. *)
Definition row_first (row : Row) : Exn + PyVal :=
  match row with
  | [] => inl (mkExn PyIndexError "tuple index out of range" None)
  | x :: _ => inr x
  end.

(** What the script adds to the outside: [cursor.fetchone]. *)
Record ScriptEnv := {
  driver : Env;
  fetchone_result : World -> Cursor -> Exn + option Row
}.

(** What the script does beside the world of the module: the lines it
    prints, the tracebacks it prints, and its [fetchone] calls with
    their results. *)
Record Console := {
  stdout : list string;
  tracebacks : list Exn;
  fetchones : list (Cursor * (Exn + option Row))
}.

Definition Script : Type := Console * World.

(** A computation on [S] run next to more state [X]. *)
Definition lift_in {X S A} (m : M S A) : M (X * S) A :=
  fun s => match m (snd s) with (r, s') => (r, (fst s, s')) end.

Definition print (line : string) : M Script unit :=
  fun s => (inr tt,
            ({| stdout := stdout (fst s) ++ [line];
                tracebacks := tracebacks (fst s);
                fetchones := fetchones (fst s) |}, snd s)).

(** [traceback.print_exc()] while [e] is being handled. *)
Definition traceback_print_exc (e : Exn) : M Script unit :=
  fun s => (inr tt,
            ({| stdout := stdout (fst s);
                tracebacks := tracebacks (fst s) ++ [e];
                fetchones := fetchones (fst s) |}, snd s)).

Definition cur_fetchone (senv : ScriptEnv) (k : Cursor) : M Script (option Row) :=
  fun s =>
    let res := fetchone_result senv (snd s) k in
    (res,
     ({| stdout := stdout (fst s);
         tracebacks := tracebacks (fst s);
         fetchones := fetchones (fst s) ++ [(k, res)] |}, snd s)).

Definition of_result {S A} (r : Exn + A) : M S A :=
  match r with
  | inr a => ret a
  | inl e => raise e
  end.

(** Local variable [conn] of the generator, next to any caller state. *)
Definition set_local {S} (c : option Connection) : M (option Connection * S) unit :=
  fun s => (inr tt, (c, snd s)).
Definition get_local {S} : M (option Connection * S) (option Connection) :=
  fun s => (inr (fst s), s).
Definition run_local {S A} (m : M (option Connection * S) A) : M S A :=
  fun s => match m (None, s) with (r, s') => (r, snd s') end.

(** [with cockroach_connection() as conn: body conn] for a body that
    also works on state of the caller ([X]): the same generator as
    [cockroach_connection], whose steps act on the world only. *)
Definition cockroach_connection_in {X A} (env : Env) (G : Globals)
    (body : Connection -> M (X * World) A) : M (X * World) A :=
  run_local (
    set_local None >>
    try_finally
      (try_except_Exception
         (let* c := lift_in (lift_in (get_connection env G)) in
          set_local (Some c) >>
          lift_in (lift_in (logger_info "Connection established successfully")) >>
          lift_in (body c))
         (fun e =>
            lift_in (lift_in
              (logger_error ("Connection failed: " +:+ str_exn e))) >>
            raise e))
      (let* conn := get_local in
       if truthy_conn conn then
         lift_in (lift_in (conn_close_method env conn)) >>
         lift_in (lift_in (logger_info "Connection closed"))
       else ret tt)).

Definition newline : string := String (Ascii.ascii_of_nat 10) EmptyString.

Definition test_query : string := "SELECT current_user, version()".
Definition tables_query : string :=
  "SELECT table_name FROM information_schema.tables WHERE table_schema = 'public' LIMIT 5".

(** The body of the [with] block of the connection test. *)
Definition connection_test_body (senv : ScriptEnv) (conn : Connection)
    : M Script unit :=
  let* cur := lift_in (conn_cursor (driver senv) conn) in
  lift_in (cur_execute (driver senv) cur test_query None) >>
  let* row := cur_fetchone senv cur in
  let* uv := of_result (unpack_pair row) in
  print ("✓ Connected as: " +:+ str_val (fst uv)) >>
  let* version50 := of_result (slice_val 50 (snd uv)) in
  print ("✓ Database version: " +:+ version50 +:+ "...") >>
  lift_in (cur_close (driver senv) cur).

(** [for row in results: print(f"  - {row[0]}")] *)
Fixpoint print_rows (results : list Row) : M Script unit :=
  match results with
  | [] => ret tt
  | row :: rest =>
      let* x := of_result (row_first row) in
      print ("  - " +:+ str_val x) >>
      print_rows rest
  end.

(** The [try] block of the script. *)
Definition main_try (senv : ScriptEnv) (G : Globals) : M Script unit :=
  cockroach_connection_in (driver senv) G (connection_test_body senv) >>
  let* cr := lift_in (run_reconciliation_query (driver senv) G tables_query None) in
  print (newline +:+ "Tables in public schema:") >>
  print_rows (snd cr).

(** The [if __name__ == "__main__":] block. *)
Definition main (senv : ScriptEnv) (G : Globals) : M Script unit :=
  try_except_Exception (main_try senv G)
    (fun e =>
       print ("✗ Error: " +:+ str_exn e) >>
       traceback_print_exc e).

(** Calls that start the JVM, open or close a connection: a body that
    makes none of them is quiet. *)
Definition quiet (evs : list Event) : Prop :=
  count_calls is_StartJVM evs = 0 /\
  count_calls is_Connect evs = 0 /\
  count_calls is_any_close evs = 0.

Definition quiet_body {X A} (body : Connection -> M (X * World) A) : Prop :=
  forall c s r s',
    body c s = (r, s') ->
    jvm (snd s') = jvm (snd s) /\
    exists mid, trace (snd s') = trace (snd s) ++ mid /\ quiet mid.

Definition script_env (e : Env) : ScriptEnv := {|
  driver := e;
  fetchone_result := fun _ _ => inr (Some [PyStr "n123456"; PyStr "CockroachDB CCL v23.1.11"])
|}.

Definition empty_console : Console :=
  {| stdout := []; tracebacks := []; fetchones := [] |}.

(** The exception of [[desc[0] for desc in description]], if any:
    [None] cannot be iterated, an empty entry has no first element. *)
Definition comprehension_error (description : option (list Row)) : option Exn :=
  match description with
  | None => Some (mkExn PyTypeError "'NoneType' object is not iterable" None)
  | Some d => match first_items d with
              | inl e => Some e
              | inr _ => None
              end
  end.

(** A cursor without description, as after a statement that returns
    no result set. *)
Definition no_description (e : Env) : Env := {|
  path_exists_now := path_exists_now e;
  default_jvm_path := default_jvm_path e;
  startJVM_raises := startJVM_raises e;
  connect_raises := connect_raises e;
  close_raises := close_raises e;
  cursor_raises := cursor_raises e;
  execute_raises := execute_raises e;
  fetchall_result := fetchall_result e;
  description_result := fun _ _ => inr None;
  cursor_close_raises := cursor_close_raises e
|}.

(** ** Proof support *)

Lemma count_calls_app p (l1 l2 : list Event) :
  count_calls p (l1 ++ l2) = count_calls p l1 + count_calls p l2.
Proof. induction l1 as [|ev l1 IH]; simpl; [reflexivity | rewrite IH; lia]. Qed.

Lemma count_ok_app p (l1 l2 : list Event) :
  count_ok p (l1 ++ l2) = count_ok p l1 + count_ok p l2.
Proof. induction l1 as [|ev l1 IH]; simpl; [reflexivity | rewrite IH; lia]. Qed.

Lemma count_ok_le_calls p (l : list Event) : count_ok p l <= count_calls p l.
Proof.
  induction l as [|ev l IH]; simpl; [lia |].
  destruct (p (ev_call ev)); simpl; [destruct (succeeded ev) |]; lia.
Qed.

(** Unfolding of the monad and of the primitive operations. *)
Create HintDb py_ops.
#[global] Hint Unfold ret raise bind try_except_Exception try_finally
  lift set_conn get_conn run_frame
  logger_info logger_warning logger_error os_path_exists
  jpype_isJVMStarted jpype_getDefaultJVMPath jpype_startJVM
  jaydebeapi_connect conn_close conn_close_method conn_cursor
  cur_execute cur_fetchall cur_description cur_close : py_ops.

Ltac unfold_ops := autounfold with py_ops in *; simpl in *.

(** Case analysis on the next oracle the code consults. *)
Ltac oracle_step :=
  match goal with
  | |- context [path_exists_now ?e ?w ?p] =>
      let E := fresh "Hticket" in destruct (path_exists_now e w p) eqn:E
  | |- context [default_jvm_path ?e ?w] =>
      let E := fresh "Hpath" in destruct (default_jvm_path e w) eqn:E
  | |- context [startJVM_raises ?e ?w ?a] =>
      let E := fresh "Hstart" in destruct (startJVM_raises e w a) eqn:E
  | |- context [connect_raises ?e ?w ?a ?b ?c ?d] =>
      let E := fresh "Hconnect" in destruct (connect_raises e w a b c d) eqn:E
  | |- context [cursor_raises ?e ?w ?c] =>
      let E := fresh "Hcursor" in destruct (cursor_raises e w c) eqn:E
  | |- context [execute_raises ?e ?w ?k ?q ?a] =>
      let E := fresh "Hexecute" in destruct (execute_raises e w k q a) eqn:E
  | |- context [fetchall_result ?e ?w ?k] =>
      let E := fresh "Hfetch" in destruct (fetchall_result e w k) eqn:E
  | |- context [description_result ?e ?w ?k] =>
      let E := fresh "Hdescr" in destruct (description_result e w k) eqn:E
  | |- context [cursor_close_raises ?e ?w ?k] =>
      let E := fresh "Hcurclose" in destruct (cursor_close_raises e w k) eqn:E
  | |- context [close_raises ?e ?w ?c] =>
      let E := fresh "Hclose" in destruct (close_raises e w c) eqn:E
  end; simpl in *.

(** ** The credential prechecker *)

(** C4. [ensure_kerberos_ticket] always returns normally (it never
    raises); its result is [True] exactly when the ticket cache exists
    at the time of the check; when it returns [False] it has logged two
    warnings, the second one the remediation hint, and otherwise it
    logs nothing; it calls nothing else. *)
Theorem ensure_kerberos_ticket_reports (env : Env) (w : World) :
  exists w',
    ensure_kerberos_ticket env w
      = (inr (path_exists_now env w ticket_cache), w') /\
    jvm w' = jvm w /\ next_id w' = next_id w /\ trace w' = trace w /\
    log w' = log w ++
      (if path_exists_now env w ticket_cache then [] else ticket_warnings).
Proof.
  unfold ensure_kerberos_ticket. unfold_ops.
  destruct (path_exists_now env w ticket_cache); simpl; eexists; split;
    try reflexivity; simpl; repeat split.
  - now rewrite app_nil_r.
  - now rewrite <- app_assoc.
Qed.

(** ** Acquisition *)

(** Case analysis along [get_connection]: ticket, runtime flag, JVM
    path, start, connect. *)
Ltac get_connection_cases :=
  unfold get_connection, ensure_kerberos_ticket; unfold_ops;
  repeat first
    [ oracle_step
    | match goal with
      | |- context [jvm ?w] =>
          lazymatch w with
          | context [set_jvm] => fail
          | _ => let E := fresh "Hjvm" in destruct (jvm w) eqn:E; simpl in *
          end
      end ].

(** A [False] from the prechecker means the ticket cache was absent. *)
Lemma ensure_kerberos_ticket_false (env : Env) (w : World) :
  fst (ensure_kerberos_ticket env w) = inr false ->
  path_exists_now env w ticket_cache = false.
Proof.
  unfold ensure_kerberos_ticket. unfold_ops.
  destruct (path_exists_now env w ticket_cache); simpl; [discriminate | reflexivity].
Qed.

(** Without the ticket cache [get_connection] stops at its guard. *)
Lemma get_connection_without_ticket_state (env : Env) (G : Globals) (w : World) :
  path_exists_now env w ticket_cache = false ->
  exists w',
    get_connection env G w = (inl no_ticket_exception, w') /\
    jvm w' = jvm w /\ next_id w' = next_id w /\ trace w' = trace w /\
    log w' = log w ++ ticket_warnings.
Proof.
  intros Habsent. unfold get_connection, ensure_kerberos_ticket. unfold_ops.
  rewrite Habsent. simpl. eexists. split; [reflexivity |].
  simpl. repeat split. now rewrite <- app_assoc.
Qed.

(** C9. When the ticket cache is absent, [get_connection] raises
    [Exception("No valid Kerberos ticket found")] without having started
    the JVM or called the driver: the runtime flag, the object counter
    and the trace of outside calls are unchanged (no start, no connect);
    only the two warnings were logged. *)
Theorem get_connection_without_ticket (env : Env) (G : Globals) (w : World) :
  path_exists_now env w ticket_cache = false ->
  exists w',
    get_connection env G w = (inl no_ticket_exception, w') /\
    jvm w' = jvm w /\ next_id w' = next_id w /\ trace w' = trace w /\
    log w' = log w ++ ticket_warnings.
Proof. exact (get_connection_without_ticket_state env G w). Qed.

Lemma get_connection_without_ticket_witness :
  exists w',
    get_connection (no_ticket happy_env) source_globals fresh_world
      = (inl no_ticket_exception, w') /\
    jvm w' = None /\ next_id w' = 0 /\ trace w' = [] /\
    log w' = ticket_warnings.
Proof.
  apply (get_connection_without_ticket (no_ticket happy_env) source_globals
           fresh_world).
  reflexivity.
Defined.

(** The outside calls of one [get_connection]: at most one [startJVM],
    and only when the runtime was not started, then at most one
    [connect], whose result is the result of the function. *)
Lemma get_connection_events (env : Env) (G : Globals) (w : World) r w1 :
  get_connection env G w = (r, w1) ->
  exists starts conns,
    trace w1 = trace w ++ starts ++ conns /\
    (starts = [] \/
     exists p res, jvm w = None /\
       starts = [{| ev_call := StartJVM (jvm_args G p); ev_result := res |}]) /\
    ((conns = [] /\ exists e, r = inl e) \/ conns = [connect_event G r]).
Proof.
  revert r w1. get_connection_cases; intros r w1 Heq; inversion Heq; subst; simpl;
    rewrite <- ?app_assoc; simpl.
  - exists [], [connect_event G (inl e)]. naive_solver.
  - exists [], [connect_event G (inr {| conn_id := next_id w |})]. naive_solver.
  - exists [], []. rewrite app_nil_r. naive_solver.
  - exists [{| ev_call := StartJVM (jvm_args G s); ev_result := inl e |}], [].
    naive_solver.
  - exists [{| ev_call := StartJVM (jvm_args G s); ev_result := inr RNone |}],
      [connect_event G (inl e)]. naive_solver.
  - exists [{| ev_call := StartJVM (jvm_args G s); ev_result := inr RNone |}],
      [connect_event G (inr {| conn_id := next_id w |})]. naive_solver.
  - exists [], []. rewrite app_nil_r. naive_solver.
  - exists [], []. rewrite app_nil_r. naive_solver.
Qed.

(** A successful [get_connection] ends with the successful driver call;
    before it there is nothing but, possibly, the JVM start. *)
Lemma get_connection_success (env : Env) (G : Globals) (w : World) c w1 :
  get_connection env G w = (inr c, w1) ->
  exists pre,
    trace w1 = trace w ++ pre ++ [connect_event G (inr c)] /\
    count_calls is_Connect pre = 0 /\
    count_calls is_any_close pre = 0 /\
    count_calls (is_close_of c) pre = 0.
Proof.
  intros Heq. destruct (get_connection_events _ _ _ _ _ Heq)
    as (starts & conns & Htr & Hst & Hco).
  destruct Hco as [[_ [e He]] | ->]; [discriminate |].
  exists starts. split; [exact Htr |].
  destruct Hst as [-> | (p & res & _ & ->)]; simpl; auto.
Qed.

(** The state in which [get_connection] leaves the runtime: a started
    runtime is left alone; a runtime that was not started is started by
    the first outside call or stays not started. *)
Lemma get_connection_jvm (env : Env) (G : Globals) (w : World) r w1 :
  get_connection env G w = (r, w1) ->
  exists new,
    trace w1 = trace w ++ new /\
    match jvm w with
    | Some a => jvm w1 = Some a /\ count_calls is_StartJVM new = 0
    | None =>
        match jvm w1 with
        | Some a =>
            exists post,
              new = {| ev_call := StartJVM a; ev_result := inr RNone |} :: post /\
              count_calls is_StartJVM post = 0
        | None =>
            count_ok is_StartJVM new = 0 /\
            count_calls is_StartJVM new <= 1 /\
            ((forall w0 a, startJVM_raises env w0 a = None) ->
             count_calls is_StartJVM new = 0)
        end
    end.
Proof.
  revert r w1. get_connection_cases; intros r w1 Heq; inversion Heq; subst; simpl;
    rewrite <- ?app_assoc;
    try (eexists; split; [reflexivity |]);
    try (exists []; split; [now rewrite app_nil_r |]);
    rewrite ?Hjvm; simpl; eauto.
  repeat split; auto. intros Hnever. rewrite Hnever in Hstart. discriminate.
Qed.

(** An acquisition that passes the ticket check, finds the runtime not
    started and obtains the JVM path calls [startJVM] before anything
    else. *)
Lemma get_connection_performs_start (env : Env) (G : Globals) (w : World) p :
  jvm w = None ->
  path_exists_now env w ticket_cache = true ->
  default_jvm_path env (add_log INFO "Starting JVM with Kerberos configuration" w)
    = inr p ->
  exists res post,
    trace (snd (get_connection env G w)) =
      trace w ++ {| ev_call := StartJVM (jvm_args G p); ev_result := res |} :: post.
Proof.
  intros Hjvm Hticket Hpath.
  unfold get_connection, ensure_kerberos_ticket. unfold_ops.
  rewrite Hticket. simpl. rewrite Hjvm. simpl. rewrite Hpath. simpl.
  repeat oracle_step; rewrite <- ?app_assoc; simpl; eauto.
Qed.

(** The same over a sequence of acquisitions. *)
Lemma acquire_n_jvm (env : Env) (G : Globals) (n : nat) (w : World) :
  exists new,
    trace (acquire_n env G n w) = trace w ++ new /\
    match jvm w with
    | Some a =>
        jvm (acquire_n env G n w) = Some a /\ count_calls is_StartJVM new = 0
    | None =>
        match jvm (acquire_n env G n w) with
        | Some a =>
            exists pre post,
              new = pre ++ {| ev_call := StartJVM a; ev_result := inr RNone |} :: post /\
              count_ok is_StartJVM pre = 0 /\
              count_calls is_StartJVM post = 0 /\
              ((forall w0 a0, startJVM_raises env w0 a0 = None) ->
               count_calls is_StartJVM pre = 0)
        | None =>
            count_ok is_StartJVM new = 0 /\
            ((forall w0 a0, startJVM_raises env w0 a0 = None) ->
             count_calls is_StartJVM new = 0)
        end
    end.
Proof.
  revert w. induction n as [|n IH]; intros w; simpl.
  - exists []. rewrite app_nil_r. split; [reflexivity |].
    destruct (jvm w); auto.
  - destruct (get_connection env G w) as [r w1] eqn:Hget. simpl.
    destruct (get_connection_jvm _ _ _ _ _ Hget) as (new1 & Htr1 & H1).
    destruct (IH w1) as (new2 & Htr2 & H2).
    exists (new1 ++ new2). rewrite Htr2, Htr1, <- app_assoc.
    split; [reflexivity |].
    destruct (jvm w) as [a |].
    + destruct H1 as [Hj1 Hc1]. rewrite Hj1 in H2. destruct H2 as [Hj2 Hc2].
      split; [exact Hj2 |]. rewrite count_calls_app. lia.
    + destruct (jvm w1) as [a1 |].
      * destruct H1 as (post & -> & Hpost). destruct H2 as [Hj2 Hc2].
        rewrite Hj2. exists [], (post ++ new2). simpl.
        rewrite count_calls_app. repeat split; auto; lia.
      * destruct H1 as (Hok1 & _ & Hnever1).
        destruct (jvm (acquire_n env G n w1)) as [a2 |].
        -- destruct H2 as (pre & post & -> & Hpre & Hpost & Hnever2).
           exists (new1 ++ pre), post. rewrite <- app_assoc.
           rewrite count_ok_app, count_calls_app.
           repeat split; auto; try lia.
           intros Hn. rewrite (Hnever1 Hn), (Hnever2 Hn). reflexivity.
        -- destruct H2 as (Hok2 & Hnever2).
           rewrite count_ok_app, count_calls_app. split; [lia |].
           intros Hn. rewrite (Hnever1 Hn), (Hnever2 Hn). reflexivity.
Qed.

(** C2, as amended.  Over any number of sequential acquisitions the
    JVM start succeeds at most once.  If the runtime is already started
    when the sequence begins, no acquisition calls [startJVM] and the
    arguments of the runtime stay those of the earlier start.  If it
    was not started and is started at the end, the trace has one
    successful [startJVM], whose arguments are the runtime's, no
    successful start before it and no [startJVM] call at all after it.
    If [startJVM] never raises, it is called at most once.  A first
    acquisition that passes the ticket check, finds the runtime not
    started and obtains the JVM path performs the start call. *)
Theorem jvm_started_at_most_once (env : Env) (G : Globals) (n : nat) (w : World) :
  exists new,
    trace (acquire_n env G n w) = trace w ++ new /\
    count_ok is_StartJVM new <= 1 /\
    (forall a, jvm w = Some a ->
       jvm (acquire_n env G n w) = Some a /\ count_calls is_StartJVM new = 0) /\
    (forall a, jvm w = None -> jvm (acquire_n env G n w) = Some a ->
       exists pre post,
         new = pre ++ {| ev_call := StartJVM a; ev_result := inr RNone |} :: post /\
         count_ok is_StartJVM pre = 0 /\
         count_calls is_StartJVM post = 0) /\
    ((forall w0 a, startJVM_raises env w0 a = None) ->
       count_calls is_StartJVM new <= 1) /\
    (forall p, 0 < n -> jvm w = None ->
       path_exists_now env w ticket_cache = true ->
       default_jvm_path env
         (add_log INFO "Starting JVM with Kerberos configuration" w) = inr p ->
       exists res post,
         new = {| ev_call := StartJVM (jvm_args G p); ev_result := res |} :: post).
Proof.
  destruct (acquire_n_jvm env G n w) as (new & Htr & H).
  exists new. split; [exact Htr |].
  assert (Hfirst : forall p, 0 < n -> jvm w = None ->
    path_exists_now env w ticket_cache = true ->
    default_jvm_path env
      (add_log INFO "Starting JVM with Kerberos configuration" w) = inr p ->
    exists res post,
      new = {| ev_call := StartJVM (jvm_args G p); ev_result := res |} :: post).
  { intros p Hn Hjvm Hticket Hpath.
    destruct n as [|n]; [lia |]. simpl in Htr.
    destruct (get_connection_performs_start env G w p Hjvm Hticket Hpath)
      as (res & post & Hstep).
    destruct (acquire_n_jvm env G n (snd (get_connection env G w)))
      as (new2 & Htr2 & _).
    rewrite Htr2, Hstep, <- app_assoc in Htr. apply app_inv_head in Htr.
    exists res, (post ++ new2). rewrite <- Htr. reflexivity. }
  pose proof (count_ok_le_calls is_StartJVM) as Hle.
  destruct (jvm w) as [a |].
  - destruct H as [Hj Hc]. specialize (Hle new).
    repeat split; try lia; try congruence; try exact Hfirst.
  - destruct (jvm (acquire_n env G n w)) as [a |].
    + destruct H as (pre & post & Hnew & Hpre & Hpost & Hnever).
      specialize (Hle post).
      split; [| split; [| split; [| split]]]; try exact Hfirst.
      * rewrite Hnew, count_ok_app. simpl. lia.
      * discriminate.
      * intros a' _ Ha'. inversion Ha'; subst a'. eauto.
      * intros Hn. rewrite Hnew, count_calls_app, (Hnever Hn). simpl. lia.
    + destruct H as (Hok & Hnever).
      split; [| split; [| split; [| split]]]; try exact Hfirst;
        try lia; try discriminate.
      intros Hn. rewrite (Hnever Hn). lia.
Qed.

(** C2, as stated, fails: when [startJVM] raises, the runtime stays
    not started and the next acquisition calls [startJVM] again; two
    acquisitions, two start calls. *)
Lemma failed_start_is_invoked_again :
  let w' := acquire_n (failing_start jvm_not_found happy_env) source_globals 2
              fresh_world in
  count_calls is_StartJVM (trace w') = 2 /\
  count_ok is_StartJVM (trace w') = 0 /\
  jvm w' = None.
Proof. repeat split. Qed.

(** C7. A successful [get_connection] has called the driver's [connect]
    exactly once, as its last outside call, with four arguments: the
    class name ["org.postgresql.Driver"], the target descriptor
    [jdbc_url], the properties dict and the jar path [PG_JAR]; the dict
    has exactly the keys [jaasApplicationName] and [ApplicationName];
    the handle returned is the one the driver gave. *)
Theorem connect_invocation (env : Env) (G : Globals) (w : World) c w1 :
  get_connection env G w = (inr c, w1) ->
  exists pre driver_args,
    trace w1 = trace w ++ pre ++
      [{| ev_call := Connect "org.postgresql.Driver" (jdbc_url G) driver_args (PG_JAR G);
          ev_result := inr (RConn c) |}] /\
    count_calls is_Connect pre = 0 /\
    dom driver_args = ({[ "jaasApplicationName"; "ApplicationName" ]} : gset string) /\
    driver_args !! "jaasApplicationName" = Some "pgjdbc" /\
    driver_args !! "ApplicationName" = Some "Python-JDBC-Kerberos".
Proof.
  intros Heq. destruct (get_connection_success _ _ _ _ _ Heq)
    as (pre & Htr & Hco & _).
  exists pre, props. split; [exact Htr |]. split; [exact Hco |].
  split; [| split; reflexivity].
  unfold props. rewrite dom_insert_L, dom_singleton_L. reflexivity.
Qed.

Lemma connect_invocation_witness :
  exists pre driver_args,
    trace (snd (get_connection happy_env source_globals fresh_world))
      = trace fresh_world ++ pre ++
      [{| ev_call := Connect "org.postgresql.Driver" (jdbc_url source_globals)
                       driver_args (PG_JAR source_globals);
          ev_result := inr (RConn {| conn_id := 0 |}) |}] /\
    count_calls is_Connect pre = 0 /\
    dom driver_args = ({[ "jaasApplicationName"; "ApplicationName" ]} : gset string) /\
    driver_args !! "jaasApplicationName" = Some "pgjdbc" /\
    driver_args !! "ApplicationName" = Some "Python-JDBC-Kerberos".
Proof.
  apply (connect_invocation happy_env source_globals fresh_world).
  reflexivity.
Defined.

(** ** The target descriptor *)

Lemma string_app_assoc (s1 s2 s3 : string) :
  (s1 +:+ s2) +:+ s3 = s1 +:+ (s2 +:+ s3).
Proof.
  induction s1 as [|ch s1 IH]; [reflexivity |].
  change (String ch ((s1 +:+ s2) +:+ s3) = String ch (s1 +:+ (s2 +:+ s3))).
  f_equal. exact IH.
Qed.

(** C6. For every setting of the module constants, the descriptor that
    [get_connection] builds is
    [jdbc:postgresql://HOST:PORT/DB?sslmode=require&kerberosServerName=SPN&gssEncMode=disable&connectTimeout=20&socketTimeout=300]:
    the specification's format with the five query parameters in its
    order, the constants substituted, and the two timeouts the code
    fixes, 20 and 300 seconds.  For the constants of the source it is
    the literal string [source_jdbc_url]. *)
Theorem jdbc_url_format (G : Globals) :
  jdbc_url G =
    wire_target_descriptor "jdbc:postgresql" (HOST G) (PORT G) (DB G)
      (spec_query_parameters (SPN G) 20 300) /\
  jdbc_url source_globals = source_jdbc_url.
Proof.
  split; [| reflexivity].
  unfold jdbc_url, wire_target_descriptor, spec_query_parameters.
  cbn [map fst snd String.concat].
  change (str_int 20) with "20". change (str_int 300) with "300".
  rewrite !string_app_assoc. reflexivity.
Qed.

(** ** The connection scope *)

(** C1. Whenever [get_connection] has opened a handle [c], the scope
    calls [c.close()] exactly once, as its last outside call, after the
    caller's body has finished, whether the body returned ([rb] is a
    value) or raised ([rb] is an exception); the scope calls no
    [close] before the body runs.  So when the body does not close the
    handle itself, [c.close()] occurs exactly once among all the calls
    of the scope.  The outcome of the scope is that of the body, unless
    [close] itself raises. *)
Theorem connection_closed_exactly_once (env : Env) (G : Globals) (A : Type)
    (body : Connection -> M World A) (w : World) c w1 rb w2 :
  get_connection env G w = (inr c, w1) ->
  body c (add_log INFO "Connection established successfully" w1) = (rb, w2) ->
  exists r w' pre ev,
    cockroach_connection env G body w = (r, w') /\
    trace w1 = trace w ++ pre /\
    trace w' = trace w2 ++ [ev] /\
    ev_call ev = ConnClose c /\
    count_calls (is_close_of c) (pre ++ [ev]) = 1 /\
    r = match ev_result ev with inl e => inl e | inr _ => rb end /\
    (forall mid, trace w2 = trace w1 ++ mid ->
       count_calls (is_close_of c) mid = 0 ->
       trace w' = trace w ++ pre ++ mid ++ [ev] /\
       count_calls (is_close_of c) (pre ++ mid ++ [ev]) = 1).
Proof.
  intros Hget Hbody.
  destruct (get_connection_success _ _ _ _ _ Hget) as (pre & Htr & _ & _ & Hcl).
  assert (Hone : forall res,
    count_calls (is_close_of c)
      ((pre ++ [connect_event G (inr c)]) ++
       [{| ev_call := ConnClose c; ev_result := res |}]) = 1).
  { intros res. rewrite !count_calls_app, Hcl. simpl.
    rewrite bool_decide_true by reflexivity. reflexivity. }
  assert (Hall : forall res mid,
    trace w2 = trace w1 ++ mid ->
    count_calls (is_close_of c) mid = 0 ->
    trace w2 ++ [{| ev_call := ConnClose c; ev_result := res |}] =
      trace w ++ (pre ++ [connect_event G (inr c)]) ++ mid ++
        [{| ev_call := ConnClose c; ev_result := res |}] /\
    count_calls (is_close_of c)
      ((pre ++ [connect_event G (inr c)]) ++ mid ++
       [{| ev_call := ConnClose c; ev_result := res |}]) = 1).
  { intros res mid Hmid Hnone. split.
    - rewrite Hmid, Htr, <- !app_assoc. reflexivity.
    - rewrite !count_calls_app, Hcl, Hnone. simpl.
      rewrite bool_decide_true by reflexivity. reflexivity. }
  unfold cockroach_connection. unfold_ops.
  rewrite Hget. simpl. rewrite Hbody.
  destruct rb as [e | a]; simpl.
  - destruct (isinstance_Exception e); simpl; oracle_step;
      do 2 eexists; exists (pre ++ [connect_event G (inr c)]); eexists;
      (split; [reflexivity |]); simpl; rewrite Hone;
      repeat split; auto; apply Hall; assumption.
  - oracle_step;
      do 2 eexists; exists (pre ++ [connect_event G (inr c)]); eexists;
      (split; [reflexivity |]); simpl; rewrite Hone;
      repeat split; auto; apply Hall; assumption.
Qed.

Lemma connection_closed_exactly_once_witness :
  let w1 := snd (get_connection happy_env source_globals fresh_world) in
  let w2 := add_log INFO "Connection established successfully" w1 in
  let c := {| conn_id := 0 |} in
  exists r w' pre ev,
    cockroach_connection happy_env source_globals
      (fun _ : Connection => raise (A := unit) database_error) fresh_world = (r, w') /\
    trace w1 = trace fresh_world ++ pre /\
    trace w' = trace w2 ++ [ev] /\
    ev_call ev = ConnClose c /\
    count_calls (is_close_of c) (pre ++ [ev]) = 1 /\
    r = match ev_result ev with inl e => inl e | inr _ => inl database_error end /\
    (forall mid, trace w2 = trace w1 ++ mid ->
       count_calls (is_close_of c) mid = 0 ->
       trace w' = trace fresh_world ++ pre ++ mid ++ [ev] /\
       count_calls (is_close_of c) (pre ++ mid ++ [ev]) = 1).
Proof.
  intros w1 w2 c.
  apply (connection_closed_exactly_once happy_env source_globals unit
           (fun _ => raise database_error) fresh_world c
           w1 (inl database_error) w2);
    reflexivity.
Defined.

(** ** Failures of acquisition *)

(** C5, as amended.  When the driver's [connect] raises [e], the scope
    raises that same exception [e], unchanged; the body does not run;
    there was exactly one [connect] call (no retry) and no [close]
    call; the scope adds no outside call of its own, and logs
    ["Connection failed: ..."] at error level when [e] is an
    [Exception]. *)
Theorem connect_failure_propagates (env : Env) (G : Globals) (A : Type)
    (body : Connection -> M World A) (w : World) e w1 pre :
  get_connection env G w = (inl e, w1) ->
  trace w1 = trace w ++ pre ++ [connect_event G (inl e)] ->
  exists w',
    cockroach_connection env G body w = (inl e, w') /\
    trace w' = trace w1 /\ jvm w' = jvm w1 /\
    count_calls is_Connect (pre ++ [connect_event G (inl e)]) = 1 /\
    count_calls is_any_close (pre ++ [connect_event G (inl e)]) = 0 /\
    log w' = log w1 ++
      (if isinstance_Exception e
       then [(ERROR, "Connection failed: " +:+ exn_msg e)] else []).
Proof.
  intros Hget Htr.
  destruct (get_connection_events _ _ _ _ _ Hget)
    as (starts & conns & Htr' & Hst & Hco).
  rewrite Htr in Htr'. apply app_inv_head in Htr'.
  assert (Hpre : pre = starts /\ count_calls is_Connect pre = 0
                 /\ count_calls is_any_close pre = 0).
  { destruct Hco as [[-> _] | ->].
    - rewrite app_nil_r in Htr'.
      destruct Hst as [-> | (p & res & _ & ->)].
      + destruct pre; discriminate.
      + destruct pre as [|x [|y pre]]; simpl in Htr'; discriminate.
    - apply app_inj_tail in Htr'. destruct Htr' as [-> _].
      destruct Hst as [-> | (p & res & _ & ->)]; simpl; auto. }
  destruct Hpre as (_ & Hc & Hcl).
  unfold cockroach_connection. unfold_ops. rewrite Hget. simpl.
  destruct (isinstance_Exception e); simpl; eexists;
    (split; [reflexivity |]); simpl;
    rewrite !count_calls_app, Hc, Hcl, ?app_nil_r; simpl; auto.
Qed.

Lemma connect_failure_propagates_witness :
  let env := failing_connect sql_exception happy_env in
  let w1 := snd (get_connection env source_globals fresh_world) in
  exists w',
    cockroach_connection env source_globals (fun _ => ret tt) fresh_world
      = (inl sql_exception, w') /\
    trace w' = trace w1 /\ jvm w' = jvm w1 /\
    count_calls is_Connect
      ([{| ev_call := StartJVM (jvm_args source_globals "/usr/lib/jvm/lib/server/libjvm.so");
           ev_result := inr RNone |}]
         ++ [connect_event source_globals (inl sql_exception)]) = 1 /\
    count_calls is_any_close
      ([{| ev_call := StartJVM (jvm_args source_globals "/usr/lib/jvm/lib/server/libjvm.so");
           ev_result := inr RNone |}]
         ++ [connect_event source_globals (inl sql_exception)]) = 0 /\
    log w' = log w1 ++
      (if isinstance_Exception sql_exception
       then [(ERROR, "Connection failed: " +:+ exn_msg sql_exception)] else []).
Proof.
  intros env w1.
  apply (connect_failure_propagates env source_globals unit (fun _ => ret tt)
           fresh_world sql_exception w1); reflexivity.
Defined.

(** C5, as stated, fails: with a driver whose [connect] raises a
    [java.sql.SQLException], the caller receives that very exception,
    which is no [DriverError] and wraps nothing. *)
Lemma driver_error_not_wrapped :
  let env := failing_connect sql_exception happy_env in
  let run := cockroach_connection env source_globals
               (fun _ : Connection => ret tt) fresh_world in
  trace (snd run) =
    [{| ev_call := StartJVM (jvm_args source_globals "/usr/lib/jvm/lib/server/libjvm.so");
        ev_result := inr RNone |};
     connect_event source_globals (inl sql_exception)] /\
  fst run = inl sql_exception /\
  ~ (exists e', fst run = inl e' /\ is_DriverError_wrapping sql_exception e').
Proof.
  intros env run. split; [reflexivity |]. split; [reflexivity |].
  intros (e' & He & Hcls & _).
  assert (Hrun : fst run = inl sql_exception) by reflexivity.
  rewrite Hrun in He. inversion He; subst e'. discriminate Hcls.
Qed.

(** C3, as amended.  When the prechecker returns [False], the scope
    does not go on: it raises
    [Exception("No valid Kerberos ticket found")], the body does not
    run, and neither [startJVM] nor [connect] is called (the trace and
    the runtime are unchanged); the two warnings and the error line are
    logged. *)
Theorem precheck_false_aborts (env : Env) (G : Globals) (A : Type)
    (body : Connection -> M World A) (w : World) :
  fst (ensure_kerberos_ticket env w) = inr false ->
  exists w',
    cockroach_connection env G body w = (inl no_ticket_exception, w') /\
    jvm w' = jvm w /\ next_id w' = next_id w /\ trace w' = trace w /\
    log w' = log w ++ ticket_warnings ++
               [(ERROR, "Connection failed: No valid Kerberos ticket found")].
Proof.
  intros Hfalse.
  assert (Habsent : path_exists_now env w ticket_cache = false).
  { destruct (ensure_kerberos_ticket_false env w Hfalse). reflexivity. }
  destruct (get_connection_without_ticket_state env G w Habsent)
    as (w1 & Hget & Hj & Hn & Ht & Hl).
  unfold cockroach_connection. unfold_ops. rewrite Hget. simpl.
  eexists. split; [reflexivity |]. simpl.
  rewrite Hl, <- app_assoc. auto.
Qed.

Lemma precheck_false_aborts_witness :
  exists w',
    cockroach_connection (no_ticket happy_env) source_globals
      (fun _ : Connection => ret tt) fresh_world = (inl no_ticket_exception, w') /\
    jvm w' = None /\ next_id w' = 0 /\ trace w' = [] /\
    log w' = ticket_warnings ++
               [(ERROR, "Connection failed: No valid Kerberos ticket found")].
Proof.
  apply (precheck_false_aborts (no_ticket happy_env) source_globals unit
           (fun _ => ret tt) fresh_world).
  reflexivity.
Defined.

(** C3, as stated, fails: with the ticket cache absent the prechecker
    returns [False] and the scope raises at once; there is no
    [startJVM] call and no [connect] call, and the runtime is not
    started. *)
Lemma precheck_is_not_advisory :
  let env := no_ticket happy_env in
  let run := cockroach_connection env source_globals
               (fun _ : Connection => ret tt) fresh_world in
  fst (ensure_kerberos_ticket env fresh_world) = inr false /\
  fst run = inl no_ticket_exception /\
  count_calls is_StartJVM (trace (snd run)) = 0 /\
  count_calls is_Connect (trace (snd run)) = 0 /\
  jvm (snd run) = None.
Proof. repeat split. Qed.

(** ** The query helper *)

Lemma first_items_heads (d : list Row) (cols : list PyVal) :
  first_items d = inr cols -> head <$> d = Some <$> cols.
Proof.
  revert cols. induction d as [|desc d IH]; intros cols; simpl.
  - intros Heq. inversion Heq. reflexivity.
  - destruct desc as [|x desc]; [discriminate |].
    destruct (first_items d) as [e | xs]; [discriminate |].
    intros Heq. inversion Heq; subst cols. simpl. f_equal. apply IH. reflexivity.
Qed.

(** Case analysis along [run_reconciliation_query]. *)
Ltac query_cases :=
  unfold run_reconciliation_query, cockroach_connection, query_body; unfold_ops;
  repeat first
    [ oracle_step
    | match goal with
      | |- context [isinstance_Exception ?e] =>
          let E := fresh "Hexc" in destruct (isinstance_Exception e) eqn:E; simpl in *
      | |- context [first_items ?d] =>
          let E := fresh "Hitems" in destruct (first_items d) eqn:E; simpl in *
      | |- context [match ?d with Some _ => _ | None => _ end] =>
          is_var d; destruct d; simpl in *
      end ].

(** C8, as amended.  When [run_reconciliation_query] returns, its
    result is the pair [(columns, rows)] where [rows] is what
    [fetchall] returned and [columns] is, in order, the first element
    of each entry of the description read from the cursor.  The outside
    calls after the successful [connect] are, in this order: cursor
    creation, [execute], [fetchall], the read of [description],
    [cursor.close] and [conn.close], each returning normally.
    [execute] receives [params] when they are supplied and not empty;
    when they are absent or empty it is called with the query alone. *)
Theorem run_reconciliation_query_result (env : Env) (G : Globals)
    (query : string) (params : option (list PyVal)) (w : World)
    columns rows w' :
  run_reconciliation_query env G query params w = (inr (columns, rows), w') ->
  exists pre c k d,
    trace w' = trace w ++ pre ++
      connect_event G (inr c) ::
      query_steps c k query (if truthy_params params then params else None) rows d ++
      [ {| ev_call := CurClose k; ev_result := inr RNone |};
        {| ev_call := ConnClose c; ev_result := inr RNone |} ] /\
    cur_conn k = c /\
    head <$> d = Some <$> columns.
Proof.
  destruct (get_connection env G w) as [[e | c] w1] eqn:Hget.
  - unfold run_reconciliation_query, cockroach_connection. unfold_ops.
    rewrite Hget. simpl. destruct (isinstance_Exception e); discriminate.
  - destruct (get_connection_success _ _ _ _ _ Hget) as (pre & Htr & _).
    unfold run_reconciliation_query, cockroach_connection, query_body. unfold_ops.
    rewrite Hget. simpl.
    destruct (truthy_params params) eqn:Hp; simpl;
      query_cases; intros Heq; try discriminate;
      inversion Heq; subst; simpl;
      exists pre, c, {| cur_id := next_id w1; cur_conn := c |};
      eexists; rewrite Htr, <- !app_assoc; simpl;
      (split; [reflexivity |]); (split; [reflexivity |]);
      apply first_items_heads; assumption.
Qed.

Lemma run_reconciliation_query_result_witness :
  let run := run_reconciliation_query happy_env source_globals
               "SELECT 1" (Some [PyInt 7]) fresh_world in
  exists pre c k d,
    trace (snd run) = trace fresh_world ++ pre ++
      connect_event source_globals (inr c) ::
      query_steps c k "SELECT 1" (Some [PyInt 7]) [[PyInt 1]] d ++
      [ {| ev_call := CurClose k; ev_result := inr RNone |};
        {| ev_call := ConnClose c; ev_result := inr RNone |} ] /\
    cur_conn k = c /\
    head <$> d = Some <$> [PyStr "?column?"].
Proof.
  intros run.
  apply (run_reconciliation_query_result happy_env source_globals
           "SELECT 1" (Some [PyInt 7]) fresh_world [PyStr "?column?"] [[PyInt 1]]
           (snd run)).
  reflexivity.
Defined.

(** C8, as stated, fails for parameters that are supplied but empty:
    the query succeeds, and [execute] was called with the query alone,
    not with the empty parameter list. *)
Lemma empty_params_are_not_passed :
  let run := run_reconciliation_query happy_env source_globals
               "SELECT 1" (Some []) fresh_world in
  fst run = inr ([PyStr "?column?"], [[PyInt 1]]) /\
  count_calls (is_execute_with (Some [])) (trace (snd run)) = 0 /\
  count_calls (is_execute_with None) (trace (snd run)) = 1.
Proof. repeat split. Qed.

(** A successful acquisition puts no cursor event in the trace. *)
Lemma get_connection_shape (env : Env) (G : Globals) (w : World) c w1 :
  get_connection env G w = (inr c, w1) ->
  exists starts,
    trace w1 = trace w ++ starts ++ [connect_event G (inr c)] /\
    (starts = [] \/
     exists p res,
       starts = [{| ev_call := StartJVM (jvm_args G p); ev_result := res |}]).
Proof.
  intros Hget. destruct (get_connection_events _ _ _ _ _ Hget)
    as (starts & conns & Htr & Hst & Hco).
  destruct Hco as [[_ [e He]] | ->]; [discriminate |].
  exists starts. split; [exact Htr |].
  destruct Hst as [-> | (p & res & _ & ->)]; eauto.
Qed.

Ltac find_cursor_event :=
  repeat match goal with
    | H : In _ (_ ++ _) |- _ => apply in_app_or in H
    | H : In _ (_ :: _) |- _ => simpl in H
    | H : In _ [] |- _ => destruct H
    | H : _ \/ _ |- _ => destruct H
    | H : False |- _ => destruct H
    | H : connect_event _ _ = _ |- _ => discriminate H
    | H : {| ev_call := _; ev_result := _ |} = {| ev_call := _; ev_result := _ |} |- _ =>
        first [ discriminate H | inversion H; clear H; subst ]
    end.

Ltac finish_query_case :=
  unfold cursor_step_raised; simpl; rewrite ?bool_decide_true by reflexivity;
  repeat match goal with
    | H : first_items _ = _ |- context [first_items _] => rewrite H
    end;
  simpl; repeat split;
  try solve
    [ eauto
    | intros; discriminate
    | intros;
      match goal with
      | |- exists pre, ?l = _ => exists (take (length l - 2) l); reflexivity
      end ].

(** C10.  In a call of [run_reconciliation_query] that created the
    cursor [k] on the connection [c]: [c.close()] is called exactly
    once; [k.close()] is called once when no step on the cursor failed
    and never when [execute], [fetchall] or the reading of the
    description raised, in which case the call raises; and when the
    call returns its pair, [k.close()] was the call just before
    [c.close()], both returning normally. *)
Theorem failed_query_closes_connection_not_cursor (env : Env) (G : Globals)
    (query : string) (params : option (list PyVal)) (w : World)
    r w' new c k :
  run_reconciliation_query env G query params w = (r, w') ->
  trace w' = trace w ++ new ->
  In {| ev_call := ConnCursor c; ev_result := inr (RCursor k) |} new ->
  count_calls (is_close_of c) new = 1 /\
  count_calls (is_cursor_close_of k) new =
    (if existsb (cursor_step_raised k) new then 0 else 1) /\
  (existsb (cursor_step_raised k) new = true -> exists e, r = inl e) /\
  (forall res, r = inr res ->
     exists pre,
       new = pre ++ [ {| ev_call := CurClose k; ev_result := inr RNone |};
                      {| ev_call := ConnClose c; ev_result := inr RNone |} ]).
Proof.
  destruct (get_connection env G w) as [[e | c0] w1] eqn:Hget.
  - unfold run_reconciliation_query, cockroach_connection. unfold_ops.
    rewrite Hget. simpl.
    destruct (get_connection_events _ _ _ _ _ Hget)
      as (starts & conns & Htr & Hst & Hco).
    destruct (isinstance_Exception e); simpl; intros Heq Hnew Hin;
      inversion Heq; subst; simpl in Hnew; rewrite Htr in Hnew;
      apply app_inv_head in Hnew; subst new;
      destruct Hst as [-> | (p & res & _ & ->)];
      destruct Hco as [[-> _] | ->]; find_cursor_event.
  - destruct (get_connection_shape _ _ _ _ _ Hget) as (starts & Htr & Hst).
    unfold run_reconciliation_query, cockroach_connection, query_body. unfold_ops.
    rewrite Hget. simpl.
    destruct (truthy_params params) eqn:Hp; simpl;
      query_cases; intros Heq Hnew Hin; inversion Heq; subst; simpl in Hnew;
      rewrite Htr, <- ?app_assoc in Hnew; apply app_inv_head in Hnew; subst new;
      destruct Hst as [-> | (p & res & ->)]; find_cursor_event;
      finish_query_case.
Qed.

Lemma failed_query_closes_connection_not_cursor_witness :
  let env := failing_execute database_error happy_env in
  let run := run_reconciliation_query env source_globals "SELECT 1" None fresh_world in
  let new := trace (snd run) in
  let c := {| conn_id := 0 |} in
  let k := {| cur_id := 1; cur_conn := c |} in
  count_calls (is_close_of c) new = 1 /\
  count_calls (is_cursor_close_of k) new =
    (if existsb (cursor_step_raised k) new then 0 else 1) /\
  (existsb (cursor_step_raised k) new = true -> exists e, fst run = inl e) /\
  (forall res, fst run = inr res ->
     exists pre,
       new = pre ++ [ {| ev_call := CurClose k; ev_result := inr RNone |};
                      {| ev_call := ConnClose c; ev_result := inr RNone |} ]).
Proof.
  intros env run new c k.
  apply (failed_query_closes_connection_not_cursor env source_globals
           "SELECT 1" None fresh_world (fst run) (snd run) new c k).
  - reflexivity.
  - reflexivity.
  - simpl. auto.
Defined.

(** ** Runs on concrete environments *)

Example select_1_returns_its_row :
  fst (run_reconciliation_query happy_env source_globals "SELECT 1" None fresh_world)
    = inr ([PyStr "?column?"], [[PyInt 1]]).
Proof. reflexivity. Qed.

Example two_acquisitions_start_the_jvm_once :
  count_calls is_StartJVM
    (trace (acquire_n happy_env source_globals 2 fresh_world)) = 1 /\
  count_calls is_Connect
    (trace (acquire_n happy_env source_globals 2 fresh_world)) = 2.
Proof. split; reflexivity. Qed.

Example failed_query_log :
  log (snd (run_reconciliation_query (failing_execute database_error happy_env)
              source_globals "SELECT 1" None fresh_world))
    = [ (INFO, "Starting JVM with Kerberos configuration");
        (INFO, "Connecting to P001-104990-104991.na.cockroachdb.jpmchase.net:26300/defaultdb");
        (INFO, "Connection established successfully");
        (ERROR, "Connection failed: relation does not exist");
        (INFO, "Connection closed") ].
Proof. reflexivity. Qed.

Example keyboard_interrupt_is_not_logged :
  log (snd (cockroach_connection happy_env source_globals
              (fun _ : Connection =>
                 raise (A := unit)
                   (mkExn (BaseExceptionOnly "KeyboardInterrupt") "" None))
              fresh_world))
    = [ (INFO, "Starting JVM with Kerberos configuration");
        (INFO, "Connecting to P001-104990-104991.na.cockroachdb.jpmchase.net:26300/defaultdb");
        (INFO, "Connection established successfully");
        (INFO, "Connection closed") ].
Proof. reflexivity. Qed.

(** * Further properties of the module *)

(** ** Acquisition and the runtime *)

(** What one [get_connection] does to the runtime and to the counts of
    starts, connects and closes. *)
Lemma get_connection_summary (env : Env) (G : Globals) (w : World) r w1 :
  get_connection env G w = (r, w1) ->
  exists new,
    trace w1 = trace w ++ new /\
    count_calls is_StartJVM new <= 1 /\
    (forall a, jvm w = Some a ->
       jvm w1 = Some a /\ count_calls is_StartJVM new = 0) /\
    count_calls is_Connect new <= 1 /\
    count_calls is_any_close new = 0 /\
    count_ok is_Connect new = (match r with inr _ => 1 | inl _ => 0 end) /\
    (jvm w1 = None -> count_calls is_Connect new = 0 /\ exists e, r = inl e).
Proof.
  revert r w1. get_connection_cases; intros r w1 Heq; inversion Heq; subst; simpl;
    rewrite <- ?app_assoc;
    try (eexists; split; [reflexivity |]);
    try (exists []; split; [now rewrite app_nil_r |]);
    simpl; rewrite ?Hjvm;
    repeat split; try lia; try congruence; try discriminate; eauto.
Qed.

Lemma app_same_nil {A} (l x : list A) : l = l ++ x -> x = [].
Proof.
  intros H. rewrite <- (app_nil_r l) in H at 1.
  apply app_inv_head in H. auto.
Qed.

(** From [trace w ++ evs = trace w ++ new], name the new events. *)
Ltac name_new_events H :=
  rewrite <- ?app_assoc in H;
  first [ apply app_inv_head in H | apply app_same_nil in H ];
  subst.

(** X1.  [get_connection] calls the driver only with the JVM started:
    if its calls include a [connect], successful or not, the runtime is
    started when it ends, either with the arguments it already had and
    without a [startJVM] call, or by a successful [startJVM] that was
    the first call made, with the arguments built from the constants. *)
Theorem connect_needs_started_runtime (env : Env) (G : Globals) (w : World)
    r w1 new :
  get_connection env G w = (r, w1) ->
  trace w1 = trace w ++ new ->
  0 < count_calls is_Connect new ->
  exists a,
    jvm w1 = Some a /\
    ((jvm w = Some a /\ count_calls is_StartJVM new = 0) \/
     (jvm w = None /\
      exists p post,
        a = jvm_args G p /\
        new = {| ev_call := StartJVM a; ev_result := inr RNone |} :: post)).
Proof.
  revert r w1. get_connection_cases; intros r w1 Heq Htr Hpos;
    inversion Heq; subst; simpl in Htr; name_new_events Htr;
    simpl in Hpos; try lia;
    simpl; rewrite ?Hjvm; eauto 10.
Qed.

Lemma connect_needs_started_runtime_witness :
  let run := get_connection happy_env source_globals fresh_world in
  exists a,
    jvm (snd run) = Some a /\
    ((jvm fresh_world = Some a /\ count_calls is_StartJVM (trace (snd run)) = 0) \/
     (jvm fresh_world = None /\
      exists p post,
        a = jvm_args source_globals p /\
        trace (snd run)
          = {| ev_call := StartJVM a; ev_result := inr RNone |} :: post)).
Proof.
  intros run.
  apply (connect_needs_started_runtime happy_env source_globals fresh_world
           (fst run) (snd run) (trace (snd run))).
  - reflexivity.
  - reflexivity.
  - simpl. lia.
Defined.

(** X2.  Whatever makes [get_connection] raise (the ticket guard, the
    JVM path, the JVM start or the driver), the scope raises that same
    exception; the body is not run, whatever it is; no [close] is
    called, since [conn] is still [None] in the [finally]; the only
    thing added is the error line, when the exception is an
    [Exception]. *)
Theorem acquisition_failure_skips_body (env : Env) (G : Globals) (A : Type)
    (body : Connection -> M World A) (w : World) e w1 :
  get_connection env G w = (inl e, w1) ->
  cockroach_connection env G body w =
    (inl e,
     if isinstance_Exception e
     then add_log ERROR ("Connection failed: " +:+ exn_msg e) w1
     else w1) /\
  exists new,
    trace w1 = trace w ++ new /\ count_calls is_any_close new = 0 /\
    count_ok is_Connect new = 0.
Proof.
  intros Hget. split.
  - unfold cockroach_connection. unfold_ops. rewrite Hget. simpl.
    destruct (isinstance_Exception e); reflexivity.
  - destruct (get_connection_summary _ _ _ _ _ Hget)
      as (new & Htr & _ & _ & _ & Hcl & Hok & _).
    exists new. auto.
Qed.

Lemma acquisition_failure_skips_body_witness :
  let env := failing_start jvm_not_found happy_env in
  let w1 := snd (get_connection env source_globals fresh_world) in
  cockroach_connection env source_globals (fun _ : Connection => ret tt) fresh_world =
    (inl jvm_not_found,
     if isinstance_Exception jvm_not_found
     then add_log ERROR ("Connection failed: " +:+ exn_msg jvm_not_found) w1
     else w1) /\
  exists new,
    trace w1 = trace fresh_world ++ new /\ count_calls is_any_close new = 0 /\
    count_ok is_Connect new = 0.
Proof.
  intros env w1.
  apply (acquisition_failure_skips_body env source_globals unit
           (fun _ => ret tt) fresh_world jvm_not_found w1).
  reflexivity.
Defined.

(** X3.  The log lines of a scope that has opened a handle, after
    those of the body: ["Connection failed: ..."] at error level when
    the body raised an [Exception] (the line says so although the
    connection was made), nothing for an exception that is not an
    [Exception]; then ["Connection closed"] when [close] returned, and
    nothing when [close] raised. *)
Theorem scope_log_lines (env : Env) (G : Globals) (A : Type)
    (body : Connection -> M World A) (w : World) c w1 rb w2 :
  get_connection env G w = (inr c, w1) ->
  body c (add_log INFO "Connection established successfully" w1) = (rb, w2) ->
  exists r w' ev,
    cockroach_connection env G body w = (r, w') /\
    trace w' = trace w2 ++ [ev] /\
    log w' = log w2 ++
      (match rb with
       | inl e => if isinstance_Exception e
                  then [(ERROR, "Connection failed: " +:+ exn_msg e)] else []
       | inr _ => []
       end) ++
      (match ev_result ev with
       | inr _ => [(INFO, "Connection closed")]
       | inl _ => []
       end).
Proof.
  intros Hget Hbody.
  unfold cockroach_connection. unfold_ops.
  rewrite Hget. simpl. rewrite Hbody.
  destruct rb as [e | a]; simpl.
  - destruct (isinstance_Exception e); simpl; oracle_step;
      do 3 eexists; (split; [reflexivity |]); simpl;
      (split; [reflexivity |]); simpl;
      rewrite ?app_nil_r, <- ?app_assoc; reflexivity.
  - oracle_step; do 3 eexists; (split; [reflexivity |]); simpl;
      (split; [reflexivity |]); simpl;
      rewrite ?app_nil_r; reflexivity.
Qed.

Lemma scope_log_lines_witness :
  let w1 := snd (get_connection happy_env source_globals fresh_world) in
  let w2 := add_log INFO "Connection established successfully" w1 in
  exists r w' ev,
    cockroach_connection happy_env source_globals
      (fun _ : Connection => raise (A := unit) database_error) fresh_world = (r, w') /\
    trace w' = trace w2 ++ [ev] /\
    log w' = log w2 ++
      (if isinstance_Exception database_error
       then [(ERROR, "Connection failed: " +:+ exn_msg database_error)] else []) ++
      (match ev_result ev with
       | inr _ => [(INFO, "Connection closed")]
       | inl _ => []
       end).
Proof.
  intros w1 w2.
  apply (scope_log_lines happy_env source_globals unit
           (fun _ => raise database_error) fresh_world {| conn_id := 0 |}
           w1 (inl database_error) w2); reflexivity.
Defined.

(** ** The query helper, edge cases *)

(** X4.  The comprehension over a description that is a list: it
    raises [IndexError] exactly when some entry is an empty tuple;
    otherwise it returns one name per entry, the first element of
    each, in order. *)
Theorem first_items_spec (d : list Row) :
  match first_items d with
  | inr cols =>
      length cols = length d /\ head <$> d = Some <$> cols /\ ~ In [] d
  | inl e =>
      In [] d /\ e = mkExn PyIndexError "tuple index out of range" None
  end.
Proof.
  induction d as [|desc d IH]; simpl.
  - repeat split. intros [].
  - destruct desc as [|x desc]; [auto |].
    destruct (first_items d) as [e | xs].
    + destruct IH as [Hin He]. auto.
    + destruct IH as (Hlen & Hheads & Hnot). simpl.
      split; [congruence |]. split; [f_equal; exact Hheads |].
      intros [Hbad | Hbad]; [discriminate | auto].
Qed.

(** X5.  A query whose cursor has no usable description (it reads as
    [None], as after a statement without a result set, or one of its
    entries is empty) cannot go through [run_reconciliation_query]:
    although [execute] and [fetchall] returned, the call raises, the
    [TypeError] or [IndexError] of the comprehension unless
    [conn.close()] raises in its turn; the cursor is not closed and the
    connection's [close] is the last call. *)
Theorem query_without_description (env : Env) (G : Globals)
    (query : string) (params : option (list PyVal)) (w : World)
    r w' new k d e0 :
  run_reconciliation_query env G query params w = (r, w') ->
  trace w' = trace w ++ new ->
  In {| ev_call := CurDescription k; ev_result := inr (RDescription d) |} new ->
  comprehension_error d = Some e0 ->
  exists pre ev rows,
    new = pre ++ [ev] /\
    ev_call ev = ConnClose (cur_conn k) /\
    r = inl (match ev_result ev with inl e' => e' | inr _ => e0 end) /\
    In {| ev_call :=
            CurExecute k query (if truthy_params params then params else None);
          ev_result := inr RNone |} pre /\
    In {| ev_call := CurFetchall k; ev_result := inr (RRows rows) |} pre /\
    count_calls (is_cursor_close_of k) new = 0.
Proof.
  destruct (get_connection env G w) as [[e | c0] w1] eqn:Hget.
  - unfold run_reconciliation_query, cockroach_connection. unfold_ops.
    rewrite Hget. simpl.
    destruct (get_connection_events _ _ _ _ _ Hget)
      as (starts & conns & Htr & Hst & Hco).
    destruct (isinstance_Exception e); simpl; intros Heq Hnew Hin;
      inversion Heq; subst; simpl in Hnew; rewrite Htr in Hnew;
      apply app_inv_head in Hnew; subst new;
      destruct Hst as [-> | (p & res & _ & ->)];
      destruct Hco as [[-> _] | ->]; find_cursor_event.
  - destruct (get_connection_shape _ _ _ _ _ Hget) as (starts & Htr & Hst).
    unfold run_reconciliation_query, cockroach_connection, query_body. unfold_ops.
    rewrite Hget. simpl.
    destruct (truthy_params params) eqn:Hp; simpl;
      query_cases; intros Heq Hnew Hin Herr; inversion Heq; subst; simpl in Hnew;
      rewrite Htr, <- ?app_assoc in Hnew; apply app_inv_head in Hnew; subst new;
      destruct Hst as [-> | (p & res & ->)]; find_cursor_event;
      simpl in Herr; rewrite ?Hitems in Herr; try discriminate;
      inversion Herr; subst;
      match goal with
      | |- exists pre ev rows, ?l = _ /\ _ =>
          exists (take (length l - 1) l); eexists; eexists;
          split; [reflexivity |]
      end;
      simpl; rewrite ?bool_decide_true by reflexivity;
      repeat split; auto 12.
Qed.

Lemma query_without_description_witness :
  let env := no_description happy_env in
  let run := run_reconciliation_query env source_globals "UPDATE t SET x = 1"
               None fresh_world in
  let k := {| cur_id := 1; cur_conn := {| conn_id := 0 |} |} in
  exists pre ev rows,
    trace (snd run) = pre ++ [ev] /\
    ev_call ev = ConnClose (cur_conn k) /\
    fst run = inl (match ev_result ev with
                   | inl e' => e'
                   | inr _ => mkExn PyTypeError "'NoneType' object is not iterable" None
                   end) /\
    In {| ev_call := CurExecute k "UPDATE t SET x = 1" None;
          ev_result := inr RNone |} pre /\
    In {| ev_call := CurFetchall k; ev_result := inr (RRows rows) |} pre /\
    count_calls (is_cursor_close_of k) (trace (snd run)) = 0.
Proof.
  intros env run k.
  apply (query_without_description env source_globals "UPDATE t SET x = 1" None
           fresh_world (fst run) (snd run) (trace (snd run)) k None).
  - reflexivity.
  - reflexivity.
  - simpl. auto 10.
  - reflexivity.
Defined.

(** ** The scope around a body with state of its own *)

Ltac unfold_scope :=
  unfold cockroach_connection_in, run_local, set_local, get_local, lift_in;
  unfold_ops.

(** The two ways through the scope: acquisition fails and nothing else
    happens but the error line; or a handle is opened, the body runs,
    and [close] is the one call after it. *)
Lemma scope_in_cases {X A} (env : Env) (G : Globals)
    (body : Connection -> M (X * World) A) (x : X) (w : World) r x' w' :
  cockroach_connection_in env G body (x, w) = (r, (x', w')) ->
  (exists e w1,
     get_connection env G w = (inl e, w1) /\
     r = inl e /\ x' = x /\ trace w' = trace w1 /\ jvm w' = jvm w1) \/
  (exists c w1 rb x2 w2 ev,
     get_connection env G w = (inr c, w1) /\
     body c (x, add_log INFO "Connection established successfully" w1)
       = (rb, (x2, w2)) /\
     x' = x2 /\ trace w' = trace w2 ++ [ev] /\ jvm w' = jvm w2 /\
     ev_call ev = ConnClose c /\
     r = match ev_result ev with inl e => inl e | inr _ => rb end).
Proof.
  unfold_scope.
  destruct (get_connection env G w) as [[e | c] w1] eqn:Hget; simpl.
  - destruct (isinstance_Exception e); simpl; intros Heq; inversion Heq;
      left; do 2 eexists; (split; [reflexivity |]); simpl; auto.
  - destruct (body c (x, add_log INFO "Connection established successfully" w1))
      as [rb [x2 w2]] eqn:Hbody. simpl.
    destruct rb as [e | a]; simpl.
    + destruct (isinstance_Exception e); simpl; oracle_step;
        intros Heq; inversion Heq; right;
        do 6 eexists;
        (split; [reflexivity |]); (split; [exact Hbody |]); simpl; auto.
    + oracle_step; intros Heq; inversion Heq; right;
        do 6 eexists;
        (split; [reflexivity |]); (split; [exact Hbody |]); simpl; auto.
Qed.

(** For a body that uses no state of its own the scope with caller
    state is [cockroach_connection]: same outcome, same world, the
    caller state untouched. *)
Lemma scope_in_agrees {X A} (env : Env) (G : Globals)
    (body : Connection -> M World A) (x : X) (w : World) :
  cockroach_connection_in env G (fun c => lift_in (body c)) (x, w) =
    (fst (cockroach_connection env G body w),
     (x, snd (cockroach_connection env G body w))).
Proof.
  unfold cockroach_connection. unfold_scope.
  destruct (get_connection env G w) as [[e | c] w1] eqn:Hget; simpl.
  - destruct (isinstance_Exception e); reflexivity.
  - destruct (body c (add_log INFO "Connection established successfully" w1))
      as [[e | a] w2] eqn:Hbody; simpl.
    + destruct (isinstance_Exception e); simpl; oracle_step; reflexivity.
    + oracle_step; reflexivity.
Qed.

(** Around a quiet body the scope starts the JVM at most once and not
    at all when it is started, connects at most once, and calls
    [close] as many times as [connect] succeeded; it ends with the
    runtime not started only when it raised without connecting. *)
Lemma scope_in_summary {X A} (env : Env) (G : Globals)
    (body : Connection -> M (X * World) A) (x : X) (w : World) r x' w' :
  quiet_body body ->
  cockroach_connection_in env G body (x, w) = (r, (x', w')) ->
  exists new,
    trace w' = trace w ++ new /\
    count_calls is_StartJVM new <= 1 /\
    (forall a, jvm w = Some a ->
       jvm w' = Some a /\ count_calls is_StartJVM new = 0) /\
    count_calls is_Connect new <= 1 /\
    count_ok is_Connect new = count_calls is_any_close new /\
    (jvm w' = None -> count_calls is_Connect new = 0 /\ exists e, r = inl e).
Proof.
  intros Hquiet Hrun.
  destruct (scope_in_cases _ _ _ _ _ _ _ _ Hrun)
    as [(e & w1 & Hget & -> & -> & Htr & Hjvm)
       | (c & w1 & rb & x2 & w2 & ev & Hget & Hbody & -> & Htr & Hjvm & Hev & ->)].
  - destruct (get_connection_summary _ _ _ _ _ Hget)
      as (new & Htr1 & Hs & Hkeep & Hc & Hcl & Hok & Hnone).
    exists new. rewrite Htr, Hjvm.
    split; [exact Htr1 |]. split; [exact Hs |]. split; [exact Hkeep |].
    split; [exact Hc |]. split; [lia |].
    intros Hn. destruct (Hnone Hn) as [Hz _]. split; [exact Hz | eauto].
  - destruct (get_connection_summary _ _ _ _ _ Hget)
      as (new & Htr1 & Hs & Hkeep & Hc & Hcl & Hok & Hnone).
    destruct (Hquiet _ _ _ _ Hbody) as (Hjvm2 & mid & Hmid & Hq1 & Hq2 & Hq3).
    simpl in Hjvm2, Hmid.
    pose proof (count_ok_le_calls is_Connect mid) as Hle.
    assert (Hstarted : exists a1, jvm w1 = Some a1).
    { destruct (jvm w1) as [a1 |] eqn:E; [eauto |].
      destruct (Hnone eq_refl) as (_ & e & He). discriminate. }
    destruct Hstarted as (a1 & Ha1).
    exists (new ++ mid ++ [ev]).
    rewrite Htr, Hmid, Htr1, Hjvm, Hjvm2, <- !app_assoc.
    rewrite !count_calls_app, !count_ok_app. simpl. rewrite Hev. simpl.
    split; [reflexivity |]. split; [lia |].
    split.
    { intros a Ha. destruct (Hkeep a Ha) as [Hj Hz]. split; [exact Hj | lia]. }
    split; [lia |]. split; [lia |].
    intros Hbad. congruence.
Qed.

(** The body of the query helper is quiet. *)
Lemma query_body_quiet (env : Env) (query : string)
    (params : option (list PyVal)) (c : Connection) (w : World) r w' :
  query_body env query params c w = (r, w') ->
  jvm w' = jvm w /\ exists mid, trace w' = trace w ++ mid /\ quiet mid.
Proof.
  unfold query_body, quiet. unfold_ops.
  destruct (truthy_params params); simpl;
    query_cases; intros Heq; inversion Heq; subst; simpl;
    (split; [reflexivity |]); rewrite <- ?app_assoc;
    eexists; (split; [reflexivity |]); simpl; auto.
Qed.

(** The summary of the scope, for the query helper. *)
Lemma run_reconciliation_query_summary (env : Env) (G : Globals)
    (query : string) (params : option (list PyVal)) (w : World) r w' :
  run_reconciliation_query env G query params w = (r, w') ->
  exists new,
    trace w' = trace w ++ new /\
    count_calls is_StartJVM new <= 1 /\
    (forall a, jvm w = Some a ->
       jvm w' = Some a /\ count_calls is_StartJVM new = 0) /\
    count_calls is_Connect new <= 1 /\
    count_ok is_Connect new = count_calls is_any_close new.
Proof.
  intros Hrun.
  pose proof (scope_in_agrees (X := unit) env G (query_body env query params) tt w)
    as Hagree.
  fold (run_reconciliation_query env G query params) in Hagree.
  rewrite Hrun in Hagree. simpl in Hagree.
  assert (Hq : quiet_body (X := unit)
                 (fun c => lift_in (query_body env query params c))).
  { intros c [u w0] r0 [u' w0'] Hbody. unfold lift_in in Hbody. simpl in *.
    destruct (query_body env query params c w0) as [r1 w1] eqn:Hq.
    inversion Hbody; subst. exact (query_body_quiet _ _ _ _ _ _ _ Hq). }
  destruct (scope_in_summary env G _ tt w _ _ _ Hq Hagree)
    as (new & Htr & Hs & Hkeep & Hc & Hbal & _).
  exists new. auto.
Qed.

(** X6.  However [run_reconciliation_query] ends, it has called
    [startJVM] at most once, and not at all when the runtime was
    started, in which case the runtime keeps its arguments; it has
    called [connect] at most once; and it has called [close] exactly as
    many times as [connect] succeeded, so it leaves no connection
    open. *)
Theorem run_reconciliation_query_balance (env : Env) (G : Globals)
    (query : string) (params : option (list PyVal)) (w : World) :
  exists new,
    trace (snd (run_reconciliation_query env G query params w)) = trace w ++ new /\
    count_calls is_StartJVM new <= 1 /\
    (forall a, jvm w = Some a ->
       jvm (snd (run_reconciliation_query env G query params w)) = Some a /\
       count_calls is_StartJVM new = 0) /\
    count_calls is_Connect new <= 1 /\
    count_ok is_Connect new = count_calls is_any_close new.
Proof.
  destruct (run_reconciliation_query env G query params w) as [r w'] eqn:Hrun.
  exact (run_reconciliation_query_summary _ _ _ _ _ _ _ Hrun).
Qed.

(** ** The script's main block *)

Ltac unfold_script :=
  unfold cur_fetchone, print, traceback_print_exc, of_result, lift_in;
  unfold_ops.

(** Case analysis along the body of the connection test. *)
Ltac test_body_cases :=
  unfold connection_test_body; unfold_script;
  repeat first
    [ oracle_step
    | match goal with
      | |- context [fetchone_result ?e ?w ?k] =>
          let E := fresh "Hfetchone" in
          destruct (fetchone_result e w k) as [? | [[| ? [| ? [| ? ?]]] |]] eqn:E;
          simpl in *
      | |- context [slice_val _ ?v] =>
          is_var v; destruct v; simpl in *
      end ].

(** The body of the connection test is quiet; it prints no traceback;
    it only adds lines to the output, and when it returns these are the
    two lines of the test. *)
Lemma connection_test_body_facts (senv : ScriptEnv) (c : Connection)
    (s : Script) r s' :
  connection_test_body senv c s = (r, s') ->
  (jvm (snd s') = jvm (snd s) /\
   exists mid, trace (snd s') = trace (snd s) ++ mid /\ quiet mid) /\
  tracebacks (fst s') = tracebacks (fst s) /\
  exists out,
    stdout (fst s') = stdout (fst s) ++ out /\
    (forall u, r = inr u ->
       exists user version,
         out = [ "✓ Connected as: " +:+ str_val user;
                 "✓ Database version: " +:+ slice_to 50 version +:+ "..." ]).
Proof.
  unfold quiet. destruct s as [x w].
  test_body_cases; intros Heq; inversion Heq; subst; simpl;
    rewrite <- ?app_assoc; simpl;
    (split; [split; [reflexivity |]; eexists; (split; [reflexivity |]); simpl; auto |]);
    (split; [reflexivity |]);
    first [ exists []; rewrite app_nil_r; split; [reflexivity |];
            intros u Hu; discriminate
          | eexists; split; [reflexivity |]; intros u Hu;
            first [ discriminate | eauto ] ].
Qed.

Lemma connection_test_body_quiet (senv : ScriptEnv) :
  quiet_body (connection_test_body senv).
Proof.
  intros c s r s' Hbody.
  destruct (connection_test_body_facts _ _ _ _ _ Hbody) as [Hq _]. exact Hq.
Qed.

(** The first scope of the script: it prints no traceback; it only
    adds lines to the output, and when it returns these are the two
    lines of the test. *)
Lemma connection_test_console (senv : ScriptEnv) (G : Globals)
    (x : Console) (w : World) r x' w' :
  cockroach_connection_in (driver senv) G (connection_test_body senv) (x, w)
    = (r, (x', w')) ->
  tracebacks x' = tracebacks x /\
  exists out,
    stdout x' = stdout x ++ out /\
    (forall u, r = inr u ->
       exists user version,
         out = [ "✓ Connected as: " +:+ str_val user;
                 "✓ Database version: " +:+ slice_to 50 version +:+ "..." ]).
Proof.
  intros Hrun.
  destruct (scope_in_cases _ _ _ _ _ _ _ _ Hrun)
    as [(e & w1 & Hget & -> & -> & _)
       | (c & w1 & rb & x2 & w2 & ev & Hget & Hbody & -> & _ & _ & _ & ->)].
  - split; [reflexivity |]. exists []. rewrite app_nil_r.
    split; [reflexivity |]. intros u Hu. discriminate.
  - destruct (connection_test_body_facts _ _ _ _ _ Hbody)
      as (_ & Htb & out & Hout & Hok). simpl in Htb, Hout.
    split; [exact Htb |]. exists out. split; [exact Hout |].
    intros u Hu. destruct (ev_result ev); [discriminate |]. eauto.
Qed.


(** The loop over the rows only adds lines to the output. *)
Lemma print_rows_frame (results : list Row) (s : Script) r s' :
  print_rows results s = (r, s') ->
  snd s' = snd s /\ tracebacks (fst s') = tracebacks (fst s) /\
  exists out, stdout (fst s') = stdout (fst s) ++ out.
Proof.
  revert s r s'. induction results as [|row rest IH]; intros s r s'; simpl.
  - unfold ret. intros Heq; inversion Heq; subst.
    repeat split. exists []. now rewrite app_nil_r.
  - destruct row as [|x row]; unfold_script.
    + intros Heq; inversion Heq; subst.
      repeat split. exists []. now rewrite app_nil_r.
    + intros Hrest. destruct (IH _ _ _ Hrest) as (Hw & Htb & out & Hout).
      simpl in *. rewrite Hw, Htb, Hout, <- app_assoc.
      repeat split. eauto.
Qed.

(** What the [try] block of the script does, however it ends. *)
Lemma main_try_facts (senv : ScriptEnv) (G : Globals) (s : Script) r s' :
  main_try senv G s = (r, s') ->
  tracebacks (fst s') = tracebacks (fst s) /\
  (exists out, stdout (fst s') = stdout (fst s) ++ out) /\
  exists new,
    trace (snd s') = trace (snd s) ++ new /\
    count_calls is_StartJVM new <= 1 /\
    count_calls is_Connect new <= 2 /\
    count_ok is_Connect new = count_calls is_any_close new /\
    (count_calls is_Connect new = 2 ->
     exists user version out,
       stdout (fst s') = stdout (fst s) ++
         [ "✓ Connected as: " +:+ str_val user;
           "✓ Database version: " +:+ slice_to 50 version +:+ "..." ] ++ out).
Proof.
  destruct s as [x w]. unfold main_try, bind.
  destruct (cockroach_connection_in (driver senv) G (connection_test_body senv) (x, w))
    as [[e | u] [x1 w1]] eqn:H1.
  - intros Heq; inversion Heq; subst.
    destruct (connection_test_console _ _ _ _ _ _ _ H1) as (Htb & out & Hout & _).
    destruct (scope_in_summary _ _ _ _ _ _ _ _ (connection_test_body_quiet senv) H1)
      as (new & Htr & Hs & _ & Hc & Hbal & _).
    simpl. split; [exact Htb |]. split; [eauto |].
    exists new. repeat split; auto; lia.
  - destruct (connection_test_console _ _ _ _ _ _ _ H1) as (Htb & out & Hout & Hok).
    destruct (Hok u eq_refl) as (user & version & ->).
    destruct (scope_in_summary _ _ _ _ _ _ _ _ (connection_test_body_quiet senv) H1)
      as (new1 & Htr1 & Hs1 & _ & Hc1 & Hbal1 & Hnone1).
    assert (Hstarted : exists a1, jvm w1 = Some a1).
    { destruct (jvm w1) as [a1 |] eqn:E; [eauto |].
      destruct (Hnone1 eq_refl) as (_ & e & He). discriminate. }
    destruct Hstarted as (a1 & Ha1).
    unfold lift_in. simpl.
    destruct (run_reconciliation_query (driver senv) G tables_query None w1)
      as [[e | cr] w2] eqn:H2;
      destruct (run_reconciliation_query_summary _ _ _ _ _ _ _ H2)
        as (new2 & Htr2 & _ & Hkeep2 & Hc2 & Hbal2);
      destruct (Hkeep2 a1 Ha1) as [_ Hs2].
    + intros Heq; inversion Heq; subst. simpl.
      split; [exact Htb |]. split; [eauto |].
      exists (new1 ++ new2). rewrite Htr2, Htr1, <- app_assoc.
      rewrite !count_calls_app, !count_ok_app.
      repeat split; try lia.
      intros _. exists user, version, []. rewrite Hout. reflexivity.
    + simpl. intros Hrows.
      destruct (print_rows_frame _ _ _ _ Hrows) as (Hw & Htb3 & out3 & Hout3).
      simpl in Hw, Htb3, Hout3.
      rewrite Hw, Htb3, Hout3, Hout, <- !app_assoc. simpl.
      split; [exact Htb |]. split; [eauto |].
      exists (new1 ++ new2). rewrite Htr2, Htr1, <- app_assoc.
      rewrite !count_calls_app, !count_ok_app.
      repeat split; try lia.
      intros _. eauto.
Qed.

(** The handler of the script only prints: the error line, then the
    traceback. *)
Lemma main_cases (senv : ScriptEnv) (G : Globals) (s : Script) :
  (exists s1,
     main_try senv G s = (inr tt, s1) /\ main senv G s = (inr tt, s1)) \/
  (exists e s1,
     main_try senv G s = (inl e, s1) /\ isinstance_Exception e = false /\
     main senv G s = (inl e, s1)) \/
  (exists e s1,
     main_try senv G s = (inl e, s1) /\ isinstance_Exception e = true /\
     main senv G s =
       (inr tt,
        ({| stdout := stdout (fst s1) ++ ["✗ Error: " +:+ exn_msg e];
            tracebacks := tracebacks (fst s1) ++ [e];
            fetchones := fetchones (fst s1) |}, snd s1))).
Proof.
  unfold main, try_except_Exception.
  destruct (main_try senv G s) as [[e | []] s1] eqn:Htry.
  - destruct (isinstance_Exception e) eqn:Hexc.
    + right; right. exists e, s1.
      split; [reflexivity |]. split; [exact Hexc |].
      unfold bind, print, traceback_print_exc. reflexivity.
    + right; left. exists e, s1. repeat split. exact Hexc.
  - left. exists s1. split; reflexivity.
Qed.


(** X9.  However the script's main block ends, it has called
    [startJVM] at most once (a start that fails ends the block), it has
    called [connect] at most twice, and it has called [close] exactly
    as many times as [connect] succeeded: no connection is left
    open. *)
Theorem main_resources (senv : ScriptEnv) (G : Globals) (s : Script) :
  exists new,
    trace (snd (snd (main senv G s))) = trace (snd s) ++ new /\
    count_calls is_StartJVM new <= 1 /\
    count_calls is_Connect new <= 2 /\
    count_ok is_Connect new = count_calls is_any_close new.
Proof.
  destruct (main_cases senv G s)
    as [(s1 & Htry & ->) | [(e & s1 & Htry & Hexc & ->) | (e & s1 & Htry & Hexc & ->)]];
    destruct (main_try_facts _ _ _ _ _ Htry)
      as (_ & _ & new & Htr & Hs & Hc & Hbal & _);
    simpl; exists new; auto.
Qed.

(** X10.  The script attempts its second connection, the one of the
    tables query, only after the connection test has gone through: if
    its calls include two [connect]s, the output begins with the two
    lines of the test. *)
Theorem main_second_connection_after_test (senv : ScriptEnv) (G : Globals)
    (s : Script) new :
  trace (snd (snd (main senv G s))) = trace (snd s) ++ new ->
  count_calls is_Connect new = 2 ->
  exists user version out,
    stdout (fst (snd (main senv G s))) = stdout (fst s) ++
      [ "✓ Connected as: " +:+ str_val user;
        "✓ Database version: " +:+ slice_to 50 version +:+ "..." ] ++ out.
Proof.
  intros Hnew Htwo.
  destruct (main_cases senv G s)
    as [(s1 & Htry & Hmain) | [(e & s1 & Htry & Hexc & Hmain)
                              | (e & s1 & Htry & Hexc & Hmain)]];
    rewrite Hmain in *; simpl in *;
    destruct (main_try_facts _ _ _ _ _ Htry)
      as (_ & _ & new' & Htr & _ & _ & _ & Hord);
    rewrite Htr in Hnew; apply app_inv_head in Hnew; subst new';
    destruct (Hord Htwo) as (user & version & out & Hout).
  - eauto.
  - eauto.
  - exists user, version, (out ++ ["✗ Error: " +:+ exn_msg e]).
    rewrite Hout, <- !app_assoc. reflexivity.
Qed.

Lemma main_second_connection_after_test_witness :
  let run := main (script_env happy_env) source_globals (empty_console, fresh_world) in
  exists user version out,
    stdout (fst (snd run)) = stdout empty_console ++
      [ "✓ Connected as: " +:+ str_val user;
        "✓ Database version: " +:+ slice_to 50 version +:+ "..." ] ++ out.
Proof.
  intros run.
  apply (main_second_connection_after_test (script_env happy_env) source_globals
           (empty_console, fresh_world) (trace (snd (snd run)))).
  - vm_compute. reflexivity.
  - vm_compute. reflexivity.
Defined.


